(** * Daily Motivation API: a shallow embedding of [main.py]

    The service keeps one JSON document in a file, asks a text-generation
    API for a paragraph and mails it.  The embedding follows the source
    function by function:

    - Python values that [json.load] can produce are the type [json];
      a [dict] is a [gmap string json], so equality of documents is
      Python's [==] on dicts;
    - a Python [str] is represented by its UTF-8 encoding as a [string];
    - the file, the standard output and the network traffic form the
      [world]; handlers are computations in a state-and-exception monad
      over it; a raised exception keeps the effects performed so far;
    - the clock, the random source, the generation API and the SMTP
      server are supplied by an [env]. *)

From stdpp Require Import gmap strings list fin_maps pretty.

Set Warnings "-register-all".
Open Scope string_scope.
Open Scope list_scope.
Open Scope nat_scope.
Open Scope stdpp_scope.

(** * Python strings *)

Module PyStr.

(** The double quote, the line feed and the other control characters
    are written by their codes. *)
Definition chr (n : nat) : string := String (Ascii.ascii_of_nat n) "".
Definition dquote : string := chr 34.
Definition LF : string := chr 10.

(** [sub in s] *)
Fixpoint contains (sub s : string) : bool :=
  String.prefix sub s ||
  match s with
  | "" => false
  | String _ s' => contains sub s'
  end.

(** [s.replace(old, new)] for a non-empty [old]: the occurrences of
    [old] are found from left to right and do not overlap; [skip]
    counts the characters of a matched occurrence still to be dropped. *)
Fixpoint replace_from (old new : string) (skip : nat) (s : string) : string :=
  match s with
  | "" => ""
  | String c s' =>
      match skip with
      | S k => replace_from old new k s'
      | O =>
          if String.prefix old s
          then new +:+ replace_from old new (String.length old - 1) s'
          else String c (replace_from old new 0 s')
      end
  end.

(** [s.replace("", new)] puts [new] before every character and at
    the end. *)
Fixpoint interleave (new s : string) : string :=
  match s with
  | "" => new
  | String c s' => new +:+ String c (interleave new s')
  end.

Definition replace (old new s : string) : string :=
  match old with
  | "" => interleave new s
  | _ => replace_from old new 0 s
  end.

(** Python's white space ([str.isspace]) in UTF-8: the number of bytes
    of the white-space character [s] starts with, 0 when it starts
    with none.  U+0009..U+000D, U+001C..U+0020, U+0085, U+00A0, U+1680,
    U+2000..U+200A, U+2028, U+2029, U+202F, U+205F, U+3000. *)
Definition between (lo hi b : nat) : bool := Nat.leb lo b && Nat.leb b hi.

Definition space_width (s : string) : nat :=
  match s with
  | "" => 0
  | String c r =>
      let b := Ascii.nat_of_ascii c in
      if between 9 13 b || between 28 32 b then 1
      else
        match r with
        | "" => 0
        | String c1 r1 =>
            let b1 := Ascii.nat_of_ascii c1 in
            if Nat.eqb b 194 && (Nat.eqb b1 133 || Nat.eqb b1 160) then 2
            else
              match r1 with
              | "" => 0
              | String c2 _ =>
                  let b2 := Ascii.nat_of_ascii c2 in
                  if Nat.eqb b 225 && Nat.eqb b1 154 && Nat.eqb b2 128 then 3
                  else if Nat.eqb b 226 && Nat.eqb b1 128
                          && (between 128 138 b2 || Nat.eqb b2 168
                              || Nat.eqb b2 169 || Nat.eqb b2 175)
                  then 3
                  else if Nat.eqb b 226 && Nat.eqb b1 129 && Nat.eqb b2 159 then 3
                  else if Nat.eqb b 227 && Nat.eqb b1 128 && Nat.eqb b2 128 then 3
                  else 0
              end
        end
  end.

Fixpoint drop_bytes (n : nat) (s : string) : string :=
  match n, s with
  | S k, String _ s' => drop_bytes k s'
  | _, _ => s
  end.

(** [s.lstrip()]; [fuel] bounds the number of characters removed. *)
Fixpoint lstrip_fuel (fuel : nat) (s : string) : string :=
  match fuel with
  | O => s
  | S k =>
      match space_width s with
      | O => s
      | w => lstrip_fuel k (drop_bytes w s)
      end
  end.

Definition lstrip (s : string) : string := lstrip_fuel (String.length s) s.

(** The same test on a string read backwards. *)
Definition space_width_rev (s : string) : nat :=
  match s with
  | String c (String c1 (String c2 _)) =>
      if Nat.eqb (space_width (String c2 (String c1 (String c "")))) 3 then 3
      else if Nat.eqb (space_width (String c1 (String c ""))) 2 then 2
      else space_width (String c "")
  | String c (String c1 "") =>
      if Nat.eqb (space_width (String c1 (String c ""))) 2 then 2
      else space_width (String c "")
  | String c "" => space_width (String c "")
  | "" => 0
  end.

Fixpoint rstrip_fuel (fuel : nat) (s : string) : string :=
  match fuel with
  | O => s
  | S k =>
      match space_width_rev s with
      | O => s
      | w => rstrip_fuel k (drop_bytes w s)
      end
  end.

Definition rstrip (s : string) : string :=
  String.rev (rstrip_fuel (String.length s) (String.rev s)).

(** [s.strip()] *)
Definition strip (s : string) : string := rstrip (lstrip s).

End PyStr.

#[global] Arguments PyStr.replace : simpl never.

(** * Python values

    What [json.load] returns: [None], [bool], [int], [str], [list] and
    [dict] with string keys.  (Non-integer numbers are left out: no
    handler writes or inspects a number.) *)

Inductive json : Type :=
  | JNull
  | JBool (b : bool)
  | JInt (z : Z)
  | JStr (s : string)
  | JArr (l : list json)
  | JObj (m : gmap string json).

(** The exceptions a library call can raise: instances of [Exception],
    with the class name and the text [str(e)] gives. *)
Record exn : Type := Exn { exn_class : string; exn_str : string }.

(** What a handler can raise. *)
Inductive exception : Type :=
  | HTTPException (status_code : Z) (detail : string)
  | TypeError
  | AttributeError
  | KeyError (key : string)
  | LibraryError (e : exn).

Inductive result (A : Type) : Type :=
  | Return (a : A)
  | Raise (e : exception).
Arguments Return {A} a.
Arguments Raise {A} e.

Module Py.

(** [bool(v)] *)
Definition truthy (v : json) : bool :=
  match v with
  | JNull => false
  | JBool b => b
  | JInt z => negb (Z.eqb z 0)
  | JStr s => negb (String.eqb s "")
  | JArr l => match l with [] => false | _ => true end
  | JObj m => negb (bool_decide (m = ∅))
  end.

(** [key in v] for a string [key]: a key of a dict, an element of a
    list, a substring of a string; other values are not iterable. *)
Definition contains (key : string) (v : json) : result bool :=
  match v with
  | JObj m => Return (bool_decide (is_Some (m !! key)))
  | JArr l =>
      Return (existsb (fun x => match x with
                                | JStr s => String.eqb s key
                                | _ => false
                                end) l)
  | JStr s => Return (PyStr.contains key s)
  | _ => Raise TypeError
  end.

(** [v[key]] for a string [key] *)
Definition getitem (v : json) (key : string) : result json :=
  match v with
  | JObj m =>
      match m !! key with
      | Some x => Return x
      | None => Raise (KeyError key)
      end
  | _ => Raise TypeError
  end.

(** [v[key] = x] for a string [key] *)
Definition setitem (v : json) (key : string) (x : json) : result json :=
  match v with
  | JObj m => Return (JObj (<[key := x]> m))
  | _ => Raise TypeError
  end.

(** [v.get(key, default)]: only a dict has the method. *)
Definition get (v : json) (key : string) (default : json) : result json :=
  match v with
  | JObj m =>
      match m !! key with
      | Some x => Return x
      | None => Return default
      end
  | _ => Raise AttributeError
  end.

End Py.

(** * Configuration (module-level constants read from the environment) *)

Record config : Type := Config {
  EMAIL : option string;
  EMAIL_PASSWORD : option string;
  SMTP_SERVER : string;
  SMTP_PORT : Z;
  GEMINI_API_KEY : option string
}.

Definition tones : list string :=
  ["inspirational"; "energetic"; "calm"; "reflective"; "bold"].

(** * Pydantic models *)

Record About : Type := mkAbout {
  background : string;
  dreams : string;
  challenges : string;
  values : string
}.

Record UserData : Type := mkUserData {
  name : string;
  role : string;
  about : About
}.

Record UpdateData : Type := mkUpdateData {
  upd_role : option string;
  upd_about : option About
}.

(** [.dict()]: the fields of the model under their names. *)
Definition About_fields (a : About) : gmap string json :=
  <["background" := JStr (background a)]>
    (<["dreams" := JStr (dreams a)]>
      (<["challenges" := JStr (challenges a)]>
        (<["values" := JStr (values a)]> ∅))).

Definition About_dict (a : About) : json := JObj (About_fields a).

Definition UserData_fields (u : UserData) : gmap string json :=
  <["name" := JStr (name u)]>
    (<["role" := JStr (role u)]>
      (<["about" := About_dict (about u)]> ∅)).

Definition UserData_dict (u : UserData) : json := JObj (UserData_fields u).

(** Reading a profile back from a document: the inverse of [.dict()],
    defined on the dicts with exactly the model's keys and string
    values. *)
Definition json_str (v : option json) : option string :=
  match v with Some (JStr s) => Some s | _ => None end.

Definition About_of_json (v : json) : option About :=
  match v with
  | JObj m =>
      if bool_decide (size m = 4) then
        b ← json_str (m !! "background");
        d ← json_str (m !! "dreams");
        c ← json_str (m !! "challenges");
        v ← json_str (m !! "values");
        Some (mkAbout b d c v)
      else None
  | _ => None
  end.

Definition UserData_of_json (v : json) : option UserData :=
  match v with
  | JObj m =>
      if bool_decide (size m = 3) then
        n ← json_str (m !! "name");
        r ← json_str (m !! "role");
        a ← m !! "about" ≫= About_of_json;
        Some (mkUserData n r a)
      else None
  | _ => None
  end.

(** * The world outside the process *)

Inductive month : Type :=
  | January | February | March | April | May | June
  | July | August | September | October | November | December.

Record date : Type := Date { year : nat; month_of : month; day : nat }.

Record GenerationConfig : Type := mkGenerationConfig {
  temperature : QArith_base.Q;
  max_output_tokens : Z
}.

(** The value of [response.text]: the property raises when the answer
    has no text part. *)
Inductive text_result : Type :=
  | TextRaises (e : exn)
  | Text (s : string).

Record response : Type := Response { text : text_result }.

(** The outcome of [model.generate_content]; [ApiReturns None] is a
    missing ([None]) response. *)
Inductive api_outcome : Type :=
  | ApiRaises (e : exn)
  | ApiReturns (r : option response).

(** The message handed to the SMTP server: the headers set by
    [send_email] and the one HTML part attached. *)
Record email : Type := Email {
  From : option string;
  To : string;
  Subject : string;
  html_part : string
}.

(** The environment of one request.  [randbelow n] is the random
    source behind [random.choice]; each SMTP step either succeeds
    ([None]) or raises. [py_repr] is the interpreter's [repr] of a list
    or a dict. *)
Record env : Type := Env {
  randbelow : nat → nat;
  today : date;
  generate_content : string → GenerationConfig → api_outcome;
  smtp_connect : option exn;
  smtp_starttls : option exn;
  smtp_login : option exn;
  smtp_send_message : option exn;
  smtp_quit : option exn;
  py_repr : json → string
}.

(** The calls that leave the process, in the order they are made. *)
Inductive event : Type :=
  | Print (line : string)
  | GenerateContent (prompt : string) (cfg : GenerationConfig)
  | SmtpConnect (host : string) (port : Z)
  | SmtpStartTls
  | SmtpLogin (user password : option string)
  | SmtpSendMessage (msg : email)
  | SmtpQuit.

(** [file] is the content of [JSON_FILE], [None] when the file does not
    exist. *)
Record world : Type := World {
  file : option json;
  events : list event
}.

Definition set_file (d : json) (w : world) : world :=
  {| file := Some d; events := events w |}.

Definition log (ev : event) (w : world) : world :=
  {| file := file w; events := events w ++ [ev] |}.

(** * The monad of handlers: state and exceptions *)

Definition M (A : Type) : Type := world → result A * world.

#[global] Instance M_ret : MRet M := λ A a w, (Return a, w).

#[global] Instance M_bind : MBind M := λ A B f m w,
  match m w with
  | (Return a, w') => f a w'
  | (Raise e, w') => (Raise e, w')
  end.

Definition raise {A : Type} (e : exception) : M A := λ w, (Raise e, w).

(** A pure operation that can raise. *)
Definition lift {A : Type} (r : result A) : M A := λ w, (r, w).

(** A call to the outside: it is logged, then succeeds or raises. *)
Definition call (ev : event) (outcome : option exn) : M unit := λ w,
  match outcome with
  | None => (Return (), log ev w)
  | Some e => (Raise (LibraryError e), log ev w)
  end.

(** [with ... : body], after the context manager was entered: [exit]
    runs whether [body] returns or raises; an exception of [exit]
    replaces the one of [body]. *)
Definition with_exit {A : Type} (body : M A) (exit : M unit) : M A := λ w,
  match body w with
  | (r, w1) =>
      match exit w1 with
      | (Return _, w2) => (r, w2)
      | (Raise e, w2) => (Raise e, w2)
      end
  end.

(** * Helper functions *)

Definition read_data : M json := λ w,
  match file w with
  | None => (Return (JObj ∅), set_file (JObj ∅) w)
  | Some d => (Return d, w)
  end.

Definition write_data (data : json) : M unit := λ w,
  (Return (), set_file data w).

Definition html_body (body : string) : string :=
  PyStr.LF +:+
  "    <html>" +:+ PyStr.LF +:+
  "        <body style=" +:+ PyStr.dquote +:+
  "font-family: Arial, sans-serif; line-height:1.6; color:#333;" +:+
  PyStr.dquote +:+ ">" +:+ PyStr.LF +:+
  "            <p>" +:+ PyStr.replace PyStr.LF "<br>" body +:+ "</p>" +:+ PyStr.LF +:+
  "            <p style=" +:+ PyStr.dquote +:+
  "margin-top:20px; font-weight:bold;" +:+ PyStr.dquote +:+
  ">- Your Daily Motivation App</p>" +:+ PyStr.LF +:+
  "        </body>" +:+ PyStr.LF +:+
  "    </html>" +:+ PyStr.LF +:+
  "    ".

(** The message [send_email] builds: the three headers and the HTML
    part. *)
Definition mail (cfg : config) (subject body to_email : string) : email :=
  {| From := EMAIL cfg; To := to_email; Subject := subject;
     html_part := html_body body |}.

Definition send_email (cfg : config) (e : env)
    (subject body to_email : string) : M unit :=
  let msg := mail cfg subject body to_email in
  call (SmtpConnect (SMTP_SERVER cfg) (SMTP_PORT cfg)) (smtp_connect e);;
  with_exit
    (call SmtpStartTls (smtp_starttls e);;
     call (SmtpLogin (EMAIL cfg) (EMAIL_PASSWORD cfg)) (smtp_login e);;
     call (SmtpSendMessage msg) (smtp_send_message e))
    (call SmtpQuit (smtp_quit e)).

(** [random.choice(seq)] is [seq[randbelow(len(seq))]]; the index the
    random source gives is below the length. *)
Definition random_choice (e : env) (seq : list string) : string :=
  nth (randbelow e (length seq) mod length seq) seq "".

Definition month_name (m : month) : string :=
  match m with
  | January => "January" | February => "February" | March => "March"
  | April => "April" | May => "May" | June => "June"
  | July => "July" | August => "August" | September => "September"
  | October => "October" | November => "November" | December => "December"
  end.

Definition two_digits (n : nat) : string :=
  if Nat.ltb n 10 then "0" +:+ pretty n else pretty n.

(** [d.strftime("%B %d, %Y")] in the default locale, for the four-digit
    years of the system clock. *)
Definition strftime (d : date) : string :=
  month_name (month_of d) +:+ " " +:+ two_digits (day d) +:+ ", " +:+ pretty (year d).

(** How an f-string renders a value: [format(v, "")]. *)
Definition py_format (e : env) (v : json) : string :=
  match v with
  | JNull => "None"
  | JBool true => "True"
  | JBool false => "False"
  | JInt z => pretty z
  | JStr s => s
  | _ => py_repr e v
  end.

Definition fallback_message : string :=
  "You’ve already proved that effort beats everything. Keep pushing forward — your story is just getting started.".

Definition generation_config : GenerationConfig :=
  {| temperature := QArith_base.Qmake 95 100; max_output_tokens := 250 |}.

Definition build_prompt (today tone background dreams challenges values : string)
    : string :=
  PyStr.LF +:+
  "    Today is " +:+ today +:+ "." +:+ PyStr.LF +:+
  "    Write a " +:+ tone +:+
  " and heartfelt good morning motivational paragraph for Shuaib, " +:+ PyStr.LF +:+
  "    a Final Year B.Tech student at CUSAT. " +:+ PyStr.LF +:+
  "    Background: " +:+ background +:+ PyStr.LF +:+
  "    Dreams: " +:+ dreams +:+ PyStr.LF +:+
  "    Challenges: " +:+ challenges +:+ PyStr.LF +:+
  "    Values: " +:+ values +:+ PyStr.LF +:+
  "    " +:+ PyStr.LF +:+
  "    Write as if you're someone who has seen his struggles and growth — " +:+ PyStr.LF +:+
  "    make it real, emotional, and personal. Avoid sounding robotic or generic." +:+ PyStr.LF +:+
  "    Output only a single short paragraph (no bullet points, no greetings)." +:+ PyStr.LF +:+
  "    ".

(** The [try] block of [generate_motivation] and its [except Exception]
    handler: only the two library accesses can raise in it. *)
Definition ask_model (e : env) (prompt : string) : M string := λ w,
  let w1 := log (GenerateContent prompt generation_config) w in
  let failed (x : exn) :=
    (Return fallback_message,
     log (Print ("Error from Gemini: " +:+ exn_str x)) w1) in
  match generate_content e prompt generation_config with
  | ApiRaises x => failed x
  | ApiReturns None => (Return fallback_message, w1)
  | ApiReturns (Some r) =>
      match text r with
      | TextRaises x => failed x
      | Text s =>
          if negb (Py.truthy (JStr s)) then (Return fallback_message, w1)
          else (Return (PyStr.strip s), w1)
      end
  end.

Definition generate_motivation (e : env) (about : json) : M string :=
  let tone := random_choice e tones in
  let today := strftime (today e) in
  background ← lift (Py.get about "background" JNull);
  dreams ← lift (Py.get about "dreams" JNull);
  challenges ← lift (Py.get about "challenges" JNull);
  values ← lift (Py.get about "values" JNull);
  let prompt :=
    build_prompt today tone (py_format e background) (py_format e dreams)
                 (py_format e challenges) (py_format e values) in
  ask_model e prompt.

(** * API endpoints *)

Definition not_found : exception := HTTPException 404 "User not found".
Definition no_about : exception := HTTPException 400 "No about section found".
Definition recipient : string := "shuaibkaloor123@gmail.com".

Definition create_user (user : UserData) : M json :=
  let data := JObj {["user" := UserData_dict user]} in
  write_data data;;
  mret (JObj (<["message" := JStr "User data saved successfully"]>
              (<["data" := UserData_dict user]> ∅))).

Definition get_user : M json :=
  data ← read_data;
  found ← lift (Py.contains "user" data);
  if negb found then raise not_found
  else
    user ← lift (Py.getitem data "user");
    mret (JObj {["data" := user]}).

(** [data["user"][key] = x]: the nested dict is changed in place. *)
Definition set_user_item (data : json) (key : string) (x : json) : result json :=
  match Py.getitem data "user" with
  | Raise e => Raise e
  | Return user =>
      match Py.setitem user key x with
      | Raise e => Raise e
      | Return user' => Py.setitem data "user" user'
      end
  end.

Definition update_user (update : UpdateData) : M json :=
  data ← read_data;
  found ← lift (Py.contains "user" data);
  if negb found then raise not_found
  else
    data ← (match upd_role update with
            | Some r =>
                if Py.truthy (JStr r)
                then lift (set_user_item data "role" (JStr r))
                else mret data
            | None => mret data
            end);
    data ← (match upd_about update with
            | Some a => lift (set_user_item data "about" (About_dict a))
            | None => mret data
            end);
    write_data data;;
    user ← lift (Py.getitem data "user");
    mret (JObj (<["message" := JStr "User data updated successfully"]>
                (<["data" := user]> ∅))).

Definition motivation (cfg : config) (e : env) : M json :=
  data ← read_data;
  found ← lift (Py.contains "user" data);
  if negb found then raise not_found
  else
    user ← lift (Py.getitem data "user");
    about ← lift (Py.get user "about" (JObj ∅));
    if negb (Py.truthy about) then raise no_about
    else
      message ← generate_motivation e about;
      let message := PyStr.replace "**" "" message in
      send_email cfg e "Your Daily Motivation" message recipient;;
      mret (JObj (<["motivation" := JStr message]>
                  (<["email_sent_to" := JStr recipient]> ∅))).

(** The status the framework answers with: 200 for a handler that
    returns, the status of an [HTTPException], 500 for any other
    exception. *)
Definition status_of {A : Type} (r : result A) : Z :=
  match r with
  | Return _ => 200
  | Raise (HTTPException code _) => code
  | Raise _ => 500
  end.

(** * Reading the store *)

(** The document the handlers see: what [read_data] returns.  A missing
    file reads as the empty document. *)
Definition document (w : world) : json := default (JObj ∅) (file w).

(** The world [w] holds the profile [p] under the key "user". *)
Definition stores (w : world) (p : UserData) : Prop :=
  ∃ doc : gmap string json,
    document w = JObj doc ∧ doc !! "user" = Some (UserData_dict p).

(** The deployment starts without a file and before any traffic. *)
Definition fresh : world := {| file := None; events := [] |}.

(** The requests of the API. *)
Inductive request : Type :=
  | CreateUser (user : UserData)
  | GetUser
  | UpdateUser (update : UpdateData)
  | Motivation.

Definition handle (cfg : config) (e : env) (req : request) : M json :=
  match req with
  | CreateUser user => create_user user
  | GetUser => get_user
  | UpdateUser update => update_user update
  | Motivation => motivation cfg e
  end.

Inductive reachable : world → Prop :=
  | reachable_fresh : reachable fresh
  | reachable_step cfg e req w :
      reachable w → reachable (snd (handle cfg e req w)).

(** The storage invariant: the document is empty or has the single key
    "user" bound to the dict of a profile. *)
Definition storage_inv (w : world) : Prop :=
  document w = JObj ∅ ∨
  ∃ p : UserData, document w = JObj {["user" := UserData_dict p]}.

(** Every SMTP step succeeds. *)
Definition smtp_succeeds (e : env) : Prop :=
  smtp_connect e = None ∧ smtp_starttls e = None ∧ smtp_login e = None ∧
  smtp_send_message e = None ∧ smtp_quit e = None.

(** The exception of the first SMTP step that fails, among connection,
    TLS upgrade, authentication and send. *)
Definition smtp_failure (e : env) : option exn :=
  match smtp_connect e, smtp_starttls e, smtp_login e, smtp_send_message e with
  | Some x, _, _, _ => Some x
  | None, Some x, _, _ => Some x
  | None, None, Some x, _ => Some x
  | None, None, None, r => r
  end.

(** The generation API gave nothing to use: the call raised, the
    response is missing, its text cannot be read or is empty. *)
Inductive unusable : api_outcome → Prop :=
  | unusable_raises x : unusable (ApiRaises x)
  | unusable_missing : unusable (ApiReturns None)
  | unusable_no_text x : unusable (ApiReturns (Some (Response (TextRaises x))))
  | unusable_empty : unusable (ApiReturns (Some (Response (Text "")))).

(** The number of SMTP sessions opened in a trace. *)
Definition is_connect (ev : event) : bool :=
  match ev with SmtpConnect _ _ => true | _ => false end.

Definition connections (l : list event) : nat :=
  length (List.filter is_connect l).

(** The state after a request that found no user: the document and
    the trace are the same, and a file that exists is not touched. *)
Definition untouched (w w' : world) : Prop :=
  document w' = document w ∧ events w' = events w ∧
  (is_Some (file w) → w' = w).

(** The profile [update_user] leaves in the store. *)
Definition updated (update : UpdateData) (p : UserData) : UserData :=
  {| name := name p;
     role := match upd_role update with
             | Some r => if Py.truthy (JStr r) then r else role p
             | None => role p
             end;
     about := default (about p) (upd_about update) |}.

(** The world after the calls [evs] were made. *)
Definition appended (evs : list event) (w : world) : world :=
  {| file := file w; events := events w ++ evs |}.

(** A computation that leaves the file alone, and whose result and
    calls do not depend on the world it starts from. *)
Definition uniform {A : Type} (c : M A) : Prop :=
  ∀ w, c w = (fst (c fresh), appended (events (snd (c fresh))) w).

(** The prompt [generate_motivation] builds from an about dict. *)
Definition prompt_for (e : env) (about : gmap string json) : string :=
  let field k := py_format e (default JNull (about !! k)) in
  build_prompt (strftime (today e)) (random_choice e tones)
    (field "background") (field "dreams") (field "challenges") (field "values").

(** The body of the 200 answer of [motivation]. *)
Definition answer (message : string) : json :=
  JObj (<["motivation" := JStr message]>
        (<["email_sent_to" := JStr recipient]> ∅)).

(** The last lines of [motivation], once the about section was found:
    generate, strip the markers, send, answer. *)
Definition deliver (cfg : config) (e : env) (about : json) : M json :=
  message ← generate_motivation e about;
  let message := PyStr.replace "**" "" message in
  send_email cfg e "Your Daily Motivation" message recipient;;
  mret (JObj (<["motivation" := JStr message]>
              (<["email_sent_to" := JStr recipient]> ∅))).

(** The number of calls to the model in a trace. *)
Definition is_generate (ev : event) : bool :=
  match ev with GenerateContent _ _ => true | _ => false end.

Definition generations (l : list event) : nat :=
  length (List.filter is_generate l).

(** [isinstance(v, dict)] *)
Definition is_dict (v : json) : bool :=
  match v with JObj _ => true | _ => false end.

(** A text of [n] spaces. *)
Fixpoint spaces (n : nat) : string :=
  match n with
  | O => ""
  | S k => " " +:+ spaces k
  end.

(** The line [generate_motivation] prints for a caught exception. *)
Definition error_line (x : exn) : string := "Error from Gemini: " +:+ exn_str x.

(** The steps of the SMTP session that [send_email] reaches: each step
    is attempted when the ones before it succeeded, and the session is
    closed once it was opened. *)
Definition session (cfg : config) (e : env) (msg : email) : list event :=
  SmtpConnect (SMTP_SERVER cfg) (SMTP_PORT cfg) ::
  match smtp_connect e with
  | Some _ => []
  | None =>
      SmtpStartTls ::
      match smtp_starttls e with
      | Some _ => [SmtpQuit]
      | None =>
          SmtpLogin (EMAIL cfg) (EMAIL_PASSWORD cfg) ::
          match smtp_login e with
          | Some _ => [SmtpQuit]
          | None => [SmtpSendMessage msg; SmtpQuit]
          end
      end
  end.

(** Sample data used by the examples. *)
Module Sample.
Definition cfg : config :=
  {| EMAIL := Some "sender@example.org"; EMAIL_PASSWORD := Some "secret";
     SMTP_SERVER := "smtp.gmail.com"; SMTP_PORT := 587;
     GEMINI_API_KEY := Some "key" |}.
Definition about1 : About :=
  {| background := "b"; dreams := "d"; challenges := "c"; values := "v" |}.
Definition user1 : UserData :=
  {| name := "A"; role := "Student"; about := about1 |}.
Definition user2 : UserData :=
  {| name := "B"; role := "Engineer"; about := about1 |}.
Definition blank : About :=
  {| background := ""; dreams := ""; challenges := ""; values := "" |}.
Definition timeout : exn := {| exn_class := "TimeoutError"; exn_str := "timed out" |}.
(** An environment in which the model answers and the mail goes out. *)
Definition env_ok : env :=
  {| randbelow := λ _, 2; today := Date 2026 November 3;
     generate_content := λ _ _,
       ApiReturns (Some (Response (Text " Keep **going**, one step at a time. ")));
     smtp_connect := None; smtp_starttls := None; smtp_login := None;
     smtp_send_message := None; smtp_quit := None;
     py_repr := λ _, "{...}" |}.
(** The generation API is down. *)
Definition env_api_down : env :=
  {| randbelow := λ _, 0; today := Date 2026 November 3;
     generate_content := λ _ _, ApiRaises timeout;
     smtp_connect := None; smtp_starttls := None; smtp_login := None;
     smtp_send_message := None; smtp_quit := None;
     py_repr := λ _, "{...}" |}.
(** The SMTP server refuses the login. *)
Definition env_smtp_down : env :=
  {| randbelow := λ _, 4; today := Date 2026 November 3;
     generate_content := λ _ _, ApiReturns (Some (Response (Text "Go on.")));
     smtp_connect := None; smtp_starttls := None;
     smtp_login := Some {| exn_class := "SMTPAuthenticationError";
                           exn_str := "(535, b'5.7.8 Username and Password not accepted')" |};
     smtp_send_message := None; smtp_quit := None;
     py_repr := λ _, "{...}" |}.
Definition w1 : world := snd (create_user user1 fresh).
Definition w2 : world := snd (create_user user2 fresh).
(** A file edited by hand: the value under "user" is a number. *)
Definition w_number : world :=
  {| file := Some (JObj {["user" := JInt 5]}); events := [] |}.
(** A file edited by hand: the document is a list. *)
Definition w_list : world :=
  {| file := Some (JArr [JStr "user"]); events := [] |}.
(** The model answers with spaces only. *)
Definition env_blank : env :=
  {| randbelow := λ _, 1; today := Date 2026 November 3;
     generate_content := λ _ _, ApiReturns (Some (Response (Text "   ")));
     smtp_connect := None; smtp_starttls := None; smtp_login := None;
     smtp_send_message := None; smtp_quit := None;
     py_repr := λ _, "{...}" |}.
End Sample.

(** * Proof automation *)

Ltac run :=
  unfold get_user, update_user, motivation, create_user, generate_motivation,
    send_email, ask_model, with_exit, call, write_data, read_data, lift, raise,
    set_user_item, mbind, M_bind, mret, M_ret, document, set_file, log in *;
  simpl in *.

Ltac not_in_list H :=
  repeat (apply elem_of_cons in H as [H | H]; [discriminate H |]);
  by apply elem_of_nil in H.

(** * Examples *)

Example replace_ex1 : PyStr.replace "**" "" "a **bold** move" = "a bold move".
Proof. reflexivity. Qed.
Example replace_ex2 : PyStr.replace "**" "" "*****" = "*".
Proof. reflexivity. Qed.
Example replace_ex3 :
  PyStr.replace PyStr.LF "<br>" ("a" +:+ PyStr.LF +:+ "b") = "a<br>b".
Proof. reflexivity. Qed.
Example strip_ex1 : PyStr.strip ("  hi there " +:+ PyStr.LF) = "hi there".
Proof. reflexivity. Qed.
Example strip_ex2 : PyStr.strip "   " = "".
Proof. reflexivity. Qed.
Example strip_ex3 : PyStr.strip (PyStr.chr 194 +:+ PyStr.chr 160 +:+ "x ") = "x".
Proof. reflexivity. Qed.

(** * Basic facts *)

Lemma UserData_roundtrip (p : UserData) :
  UserData_of_json (UserData_dict p) = Some p.
Proof. by destruct p as [n r [b d c v]]. Qed.

Lemma About_dict_truthy (a : About) : Py.truthy (About_dict a) = true.
Proof. by destruct a. Qed.

Lemma UserData_dict_inj (p q : UserData) :
  UserData_dict p = UserData_dict q → p = q.
Proof.
  intros H. apply (f_equal UserData_of_json) in H.
  rewrite !UserData_roundtrip in H. congruence.
Qed.

Lemma document_cases (w : world) (doc : gmap string json) :
  document w = JObj doc →
  (file w = Some (JObj doc)) ∨ (file w = None ∧ doc = ∅).
Proof.
  destruct w as [[d|] ev]; unfold document; simpl; intros H.
  - left. by rewrite H.
  - right. split; [done | congruence].
Qed.

(** [read_data] returns the document and does not change it. *)
Lemma read_data_document (w : world) :
  fst (read_data w) = Return (document w) ∧
  document (snd (read_data w)) = document w ∧
  events (snd (read_data w)) = events w ∧
  (is_Some (file w) → snd (read_data w) = w).
Proof.
  destruct w as [[d|] ev]; run; repeat split; done.
Qed.

(** ** Creating and fetching *)

(** C1: for every profile and every previous content of the store,
    [create_user] leaves exactly the document with the one key "user"
    bound to the profile, and a following [get_user] returns that
    profile, which reads back as the profile given. *)
Theorem create_user_get_user_roundtrip (user : UserData) (w : world) :
  let w' := snd (create_user user w) in
  file w' = Some (JObj {["user" := UserData_dict user]}) ∧
  events w' = events w ∧
  get_user w' = (Return (JObj {["data" := UserData_dict user]}), w') ∧
  UserData_of_json (UserData_dict user) = Some user.
Proof.
  simpl. repeat split; try done.
  apply UserData_roundtrip.
Qed.

(** ** No stored user *)

Lemma update_user_without_user (update : UpdateData)
    (doc : gmap string json) (w : world) :
  document w = JObj doc → doc !! "user" = None →
  document (snd (update_user update w)) = document w.
Proof.
  intros Hdoc Hno.
  destruct w as [[d|] ev]; run; subst; simpl.
  - by rewrite Hno.
  - done.
Qed.

(** C3: when the document has no key "user" (the fresh deployment
    included), [get_user], [update_user] and [motivation] raise the 404
    "User not found", the document and the trace stay as they were, and a
    file that exists is left untouched. *)
Theorem no_user_not_found (cfg : config) (e : env) (update : UpdateData)
    (doc : gmap string json) (w : world)
    (Hdoc : document w = JObj doc) (Hno : doc !! "user" = None) :
  (fst (get_user w) = Raise (HTTPException 404 "User not found") ∧
   untouched w (snd (get_user w))) ∧
  (fst (update_user update w) = Raise (HTTPException 404 "User not found") ∧
   untouched w (snd (update_user update w))) ∧
  (fst (motivation cfg e w) = Raise (HTTPException 404 "User not found") ∧
   untouched w (snd (motivation cfg e w))).
Proof.
  unfold untouched.
  destruct w as [[d|] ev]; run; subst; simpl.
  - (* the file exists and holds [doc] *)
    rewrite Hno. simpl. repeat split; done.
  - (* no file: [read_data] creates it with the empty document *)
    inversion Hdoc; subst. simpl.
    repeat split; try done; by intros [? ?].
Qed.

Lemma no_user_not_found_witness :
  fst (get_user fresh) = Raise (HTTPException 404 "User not found") ∧
  fst (update_user (mkUpdateData (Some "Dev") None) fresh)
    = Raise (HTTPException 404 "User not found") ∧
  fst (motivation Sample.cfg Sample.env_ok fresh)
    = Raise (HTTPException 404 "User not found").
Proof.
  pose proof (no_user_not_found Sample.cfg Sample.env_ok
                (mkUpdateData (Some "Dev") None) ∅ fresh
                eq_refl eq_refl) as H.
  destruct H as ([Hg _] & [Hu _] & [Hm _]). auto.
Defined.

(** ** Updating *)

Lemma set_role_dict (p : UserData) (r : string) :
  Py.setitem (UserData_dict p) "role" (JStr r)
  = Return (UserData_dict {| name := name p; role := r; about := about p |}).
Proof. by destruct p. Qed.

Lemma set_about_dict (p : UserData) (a : About) :
  Py.setitem (UserData_dict p) "about" (About_dict a)
  = Return (UserData_dict {| name := name p; role := role p; about := a |}).
Proof. by destruct p. Qed.

Lemma set_user_item_stored (doc : gmap string json) (p q : UserData)
    (key : string) (x : json) :
  doc !! "user" = Some (UserData_dict p) →
  Py.setitem (UserData_dict p) key x = Return (UserData_dict q) →
  set_user_item (JObj doc) key x = Return (JObj (<["user" := UserData_dict q]> doc)).
Proof.
  intros Hu Hs. unfold set_user_item. simpl. rewrite Hu, Hs. done.
Qed.

Lemma update_user_stored (update : UpdateData) (p : UserData)
    (doc : gmap string json) (w : world) :
  document w = JObj doc →
  doc !! "user" = Some (UserData_dict p) →
  update_user update w =
    (Return (JObj (<["message" := JStr "User data updated successfully"]>
                   (<["data" := UserData_dict (updated update p)]> ∅))),
     set_file (JObj (<["user" := UserData_dict (updated update p)]> doc)) w).
Proof.
  intros Hdoc Hu.
  destruct (document_cases _ _ Hdoc) as [Hf | [_ ->]]; [| by rewrite lookup_empty in Hu].
  destruct w as [f ev]. simpl in Hf. subst f.
  unfold update_user, read_data, mbind, M_bind, lift, raise, mret, M_ret, write_data.
  simpl. rewrite Hu. simpl.
  destruct update as [[r|] [a|]]; unfold updated; simpl.
  - destruct (negb (String.eqb r "")) eqn:Hr; simpl.
    + erewrite set_user_item_stored; [| done | apply set_role_dict].
      simpl.
      erewrite set_user_item_stored;
        [| apply lookup_insert_eq | apply set_about_dict].
      simpl. rewrite lookup_insert_eq, insert_insert_eq. done.
    + erewrite set_user_item_stored; [| done | apply set_about_dict].
      simpl. rewrite lookup_insert_eq. by destruct p.
  - destruct (negb (String.eqb r "")) eqn:Hr; simpl.
    + erewrite set_user_item_stored; [| done | apply set_role_dict].
      simpl. rewrite lookup_insert_eq. done.
    + rewrite Hu. simpl. rewrite (insert_id doc "user" _ Hu).
      by destruct p.
  - erewrite set_user_item_stored; [| done | apply set_about_dict].
    simpl. rewrite lookup_insert_eq. by destruct p.
  - rewrite Hu. simpl. rewrite (insert_id doc "user" _ Hu). by destruct p.
Qed.

(** ** The storage invariant *)

Lemma storage_inv_document (w w' : world) :
  document w' = document w → storage_inv w → storage_inv w'.
Proof. unfold storage_inv. by intros ->. Qed.

Lemma get_user_document (w : world) :
  document (snd (get_user w)) = document w.
Proof.
  destruct w as [[d|] ev]; [| done].
  unfold get_user, read_data, mbind, M_bind, lift, raise, mret, M_ret. simpl.
  destruct (Py.contains "user" d) as [[|]|]; simpl; try done.
  by destruct (Py.getitem d "user").
Qed.

Lemma call_file (ev : event) (o : option exn) (w : world) :
  file (snd (call ev o w)) = file w.
Proof. by destruct o. Qed.

Lemma send_email_file (cfg : config) (e : env) (s b t : string) (w : world) :
  file (snd (send_email cfg e s b t w)) = file w.
Proof.
  unfold send_email, with_exit, call, mbind, M_bind.
  destruct (smtp_connect e), (smtp_starttls e), (smtp_login e),
    (smtp_send_message e), (smtp_quit e); done.
Qed.

Lemma generate_motivation_file (e : env) (about : json) (w : world) :
  file (snd (generate_motivation e about w)) = file w.
Proof.
  unfold generate_motivation, ask_model, mbind, M_bind, lift.
  destruct (Py.get about "background" JNull); [| done].
  destruct (Py.get about "dreams" JNull); [| done].
  destruct (Py.get about "challenges" JNull); [| done].
  destruct (Py.get about "values" JNull); [| done].
  destruct (generate_content _ _ _) as [x | [[[x | s]] |]]; try done.
  simpl. by destruct (String.eqb s "").
Qed.

Lemma motivation_document (cfg : config) (e : env) (w : world) :
  document (snd (motivation cfg e w)) = document w.
Proof.
  assert (Hgen : ∀ u d ev,
    file (snd ((about ← lift (Py.get u "about" (JObj ∅));
                if negb (Py.truthy about) then raise no_about
                else
                  message ← generate_motivation e about;
                  let message := PyStr.replace "**" "" message in
                  send_email cfg e "Your Daily Motivation" message recipient;;
                  mret (JObj (<["motivation" := JStr message]>
                              (<["email_sent_to" := JStr recipient]> ∅))))
               {| file := Some d; events := ev |})) = Some d).
  { intros u d ev. unfold mbind, M_bind, lift, raise, mret, M_ret.
    destruct (Py.get u "about" (JObj ∅)) as [a|]; [| done].
    destruct (negb (Py.truthy a)); [done |].
    pose proof (generate_motivation_file e a {| file := Some d; events := ev |}) as Hg.
    destruct (generate_motivation e a _) as [[m|] w1]; simpl in *; [| done].
    pose proof (send_email_file cfg e "Your Daily Motivation"
                  (PyStr.replace "**" "" m) recipient w1) as Hs.
    destruct (send_email _ _ _ _ _ w1) as [[|] w2]; simpl in *; congruence. }
  unfold document.
  destruct w as [[d|] ev]; [| done].
  unfold motivation, read_data. unfold mbind at 1, M_bind at 1. simpl.
  unfold mbind at 1, M_bind at 1, lift at 1.
  destruct (Py.contains "user" d) as [[|]|]; simpl; try done.
  unfold mbind at 1, M_bind at 1, lift at 1.
  destruct (Py.getitem d "user") as [u|]; [| done].
  by rewrite Hgen.
Qed.

Lemma handle_preserves (cfg : config) (e : env) (req : request) (w : world) :
  storage_inv w → storage_inv (snd (handle cfg e req w)).
Proof.
  intros Hinv. destruct req as [user | | update |]; simpl.
  - right. by exists user.
  - eapply storage_inv_document; [apply get_user_document | done].
  - destruct Hinv as [Hd | [p Hd]].
    + eapply storage_inv_document; [| by left].
      by apply (update_user_without_user update ∅).
    + rewrite (update_user_stored update p _ w Hd (lookup_singleton_eq _ _)).
      right. exists (updated update p). simpl.
      unfold document. simpl. by rewrite insert_singleton_eq.
  - eapply storage_inv_document; [apply motivation_document | done].
Qed.

Lemma fresh_inv : storage_inv fresh.
Proof. by left. Qed.

Lemma reachable_inv (w : world) : reachable w → storage_inv w.
Proof.
  induction 1 as [| cfg e req w _ IH].
  - apply fresh_inv.
  - by apply handle_preserves.
Qed.

(** C4: every state reached from the fresh deployment through the
    endpoints satisfies the storage invariant (the document is empty or
    is the single key "user" bound to a profile), and from any state
    that satisfies it each endpoint and [read_data] lead to a state that
    satisfies it. *)
Theorem storage_invariant :
  (∀ w, reachable w → storage_inv w) ∧
  (∀ w, storage_inv w →
     (∀ cfg e req, storage_inv (snd (handle cfg e req w))) ∧
     storage_inv (snd (read_data w))).
Proof.
  split; [apply reachable_inv |].
  intros w Hinv. split.
  - intros cfg e req. by apply handle_preserves.
  - eapply storage_inv_document; [| done].
    by destruct (read_data_document w) as (_ & H & _).
Qed.

Lemma storage_invariant_witness :
  storage_inv
    (snd (handle Sample.cfg Sample.env_ok
            (UpdateUser (mkUpdateData (Some "Dev") None)) Sample.w1)) ∧
  storage_inv (snd (read_data fresh)).
Proof.
  split.
  - apply (proj1 storage_invariant).
    apply reachable_step.
    apply (reachable_step Sample.cfg Sample.env_ok (CreateUser Sample.user1)).
    apply reachable_fresh.
  - apply (proj2 storage_invariant fresh). by left.
Defined.

(** C5: on a stored profile, an update that supplies only a role leaves
    the name and the about record as they were; an update that supplies
    only an about record leaves the name and the role as they were and
    stores the supplied record whole, whatever the old one was. *)
Theorem update_user_frame (p : UserData) (w : world) (Hp : stores w p) :
  (∀ r : string, ∃ p' : UserData,
     stores (snd (update_user (mkUpdateData (Some r) None) w)) p' ∧
     name p' = name p ∧ about p' = about p) ∧
  (∀ a : About,
     stores (snd (update_user (mkUpdateData None (Some a)) w))
            {| name := name p; role := role p; about := a |}).
Proof.
  destruct Hp as (doc & Hdoc & Hu). split.
  - intros r. exists (updated (mkUpdateData (Some r) None) p).
    rewrite (update_user_stored _ p doc w Hdoc Hu). split; [| done].
    eexists. split; [reflexivity |]. apply lookup_insert_eq.
  - intros a. rewrite (update_user_stored _ p doc w Hdoc Hu).
    eexists. split; [reflexivity |]. apply lookup_insert_eq.
Qed.

Lemma update_user_frame_witness :
  stores
    (snd (update_user (mkUpdateData None (Some Sample.blank)) Sample.w1))
    {| name := "A"; role := "Student"; about := Sample.blank |}.
Proof.
  assert (Hp : stores Sample.w1 Sample.user1).
  { eexists. split; [reflexivity |]. apply lookup_singleton_eq. }
  exact (proj2 (update_user_frame Sample.user1 Sample.w1 Hp) Sample.blank).
Defined.

(** C6: on a stored profile, [update_user] replaces the role exactly
    when the update carries a non-empty role: without a role, or with
    the empty string, the stored role stays; any other string becomes
    the stored role. *)
Theorem update_user_role (p : UserData) (w : world) (update : UpdateData)
    (Hp : stores w p) :
  ∃ p' : UserData,
    stores (snd (update_user update w)) p' ∧
    (upd_role update = None ∨ upd_role update = Some "" → role p' = role p) ∧
    (∀ r, upd_role update = Some r → r ≠ "" → role p' = r) ∧
    (role p' ≠ role p → ∃ r, upd_role update = Some r ∧ r ≠ "").
Proof.
  destruct Hp as (doc & Hdoc & Hu).
  exists (updated update p).
  rewrite (update_user_stored _ p doc w Hdoc Hu). split.
  { eexists. split; [reflexivity |]. apply lookup_insert_eq. }
  unfold updated. simpl. destruct (upd_role update) as [r|].
  - destruct (String.eqb_spec r "") as [-> | Hne]; simpl.
    + split; [done |]. split; [| done].
      intros r [= <-] Hr. by destruct Hr.
    + split; [intros [? | ?]; congruence |].
      split; [by intros ? [= <-] |].
      intros _. by exists r.
  - split; [done |]. split; [done |]. intros H. by destruct H.
Qed.

Lemma update_user_role_witness :
  ∃ p' : UserData,
    stores (snd (update_user (mkUpdateData (Some "Dev") None) Sample.w1)) p' ∧
    role p' = "Dev".
Proof.
  assert (Hp : stores Sample.w1 Sample.user1).
  { eexists. split; [reflexivity |]. apply lookup_singleton_eq. }
  destruct (update_user_role Sample.user1 Sample.w1
              (mkUpdateData (Some "Dev") None) Hp) as (p' & Hs & _ & Hr & _).
  exists p'. split; [exact Hs |]. by apply (Hr "Dev").
Defined.

(** ** Computations that only talk to the outside

    The generator and the notifier never touch the file: they append
    their calls to the trace, and what they return and append does not
    depend on the world they start from. *)

Lemma uniform_intro {A : Type} (c : M A) (r : result A) (evs : list event) :
  (∀ w, c w = (r, appended evs w)) → uniform c.
Proof. intros H w. by rewrite !H. Qed.

Lemma uniform_ret {A : Type} (a : A) : uniform (mret a : M A).
Proof.
  apply (uniform_intro _ (Return a) []). intros [f ev].
  unfold mret, M_ret, appended. simpl. by rewrite app_nil_r.
Qed.

Lemma uniform_raise {A : Type} (x : exception) : uniform (raise x : M A).
Proof.
  apply (uniform_intro _ (Raise x) []). intros [f ev].
  unfold raise, appended. simpl. by rewrite app_nil_r.
Qed.

Lemma uniform_lift {A : Type} (r : result A) : uniform (lift r).
Proof.
  apply (uniform_intro _ r []). intros [f ev].
  unfold lift, appended. simpl. by rewrite app_nil_r.
Qed.

Lemma uniform_call (ev : event) (o : option exn) : uniform (call ev o).
Proof. intros [f evs]. by destruct o. Qed.

Lemma appended_appended (evs evs' : list event) (w : world) :
  appended evs' (appended evs w) = appended (evs ++ evs') w.
Proof. unfold appended. simpl. by rewrite app_assoc. Qed.

Lemma appended_fresh (evs : list event) :
  appended evs fresh = {| file := None; events := evs |}.
Proof. done. Qed.

Lemma uniform_bind {A B : Type} (c : M A) (k : A → M B) :
  uniform c → (∀ a, uniform (k a)) → uniform (c ≫= k).
Proof.
  intros Hc Hk w. unfold mbind, M_bind.
  rewrite (Hc w), (Hc fresh).
  destruct (fst (c fresh)) as [a | x]; simpl.
  - rewrite (Hk a (appended _ w)), (Hk a (appended _ fresh)). simpl.
    by rewrite appended_appended.
  - done.
Qed.

Lemma uniform_with_exit {A : Type} (body : M A) (exit : M unit) :
  uniform body → uniform exit → uniform (with_exit body exit).
Proof.
  intros Hb Hx w. unfold with_exit.
  rewrite (Hb w), (Hb fresh).
  rewrite (Hx (appended _ w)), (Hx (appended _ fresh)).
  destruct (fst (exit fresh)); simpl; by rewrite appended_appended.
Qed.

Lemma uniform_ask_model (e : env) (prompt : string) :
  uniform (ask_model e prompt).
Proof.
  intros [f ev]. unfold ask_model, appended, log. simpl.
  destruct (generate_content e prompt generation_config)
    as [x | [[[x | s]] |]]; simpl; rewrite <- ?app_assoc; try done.
  by destruct (String.eqb s "").
Qed.

Lemma uniform_generate_motivation (e : env) (about : json) :
  uniform (generate_motivation e about).
Proof.
  unfold generate_motivation.
  repeat (apply uniform_bind; [apply uniform_lift | intros ?]).
  apply uniform_ask_model.
Qed.

Lemma uniform_send_email (cfg : config) (e : env) (s b t : string) :
  uniform (send_email cfg e s b t).
Proof.
  unfold send_email.
  apply uniform_bind; [apply uniform_call | intros _].
  apply uniform_with_exit; [| apply uniform_call].
  repeat (apply uniform_bind; [apply uniform_call | intros _]).
  apply uniform_call.
Qed.

Lemma uniform_deliver (cfg : config) (e : env) (about : json) :
  uniform (deliver cfg e about).
Proof.
  unfold deliver.
  apply uniform_bind; [apply uniform_generate_motivation | intros m].
  apply uniform_bind; [apply uniform_send_email | intros _].
  apply uniform_ret.
Qed.

Lemma motivation_delivers (cfg : config) (e : env)
    (doc : gmap string json) (user about : json) (w : world) :
  document w = JObj doc →
  doc !! "user" = Some user →
  Py.get user "about" (JObj ∅) = Return about →
  Py.truthy about = true →
  motivation cfg e w = deliver cfg e about w.
Proof.
  intros Hdoc Hu Ha Ht.
  destruct (document_cases _ _ Hdoc) as [Hf | [_ ->]]; [| by rewrite lookup_empty in Hu].
  destruct w as [f ev]. simpl in Hf. subst f.
  unfold motivation, read_data.
  unfold mbind at 1, M_bind at 1. simpl.
  unfold mbind at 1, M_bind at 1, lift at 1. simpl. rewrite Hu. simpl.
  unfold mbind at 1, M_bind at 1, lift at 1.
  unfold mbind at 1, M_bind at 1, lift at 1. rewrite Ha, Ht. done.
Qed.

(** ** Stripping the markers *)

Lemma prefix_empty (s : string) : String.prefix "" s = true.
Proof. by destruct s. Qed.

Lemma replace_stars_bounded (n : nat) (s : string) :
  (String.length s ≤ n)%nat →
  PyStr.contains "**" (PyStr.replace_from "**" "" 0 s) = false.
Proof.
  revert s. induction n as [| n IH]; intros s Hlen.
  - destruct s; [done | simpl in Hlen; lia].
  - destruct s as [| c s]; [done |].
    simpl in Hlen.
    assert (Hs : PyStr.contains "**" (PyStr.replace_from "**" "" 0 s) = false)
      by (apply IH; lia).
    cbn [PyStr.replace_from String.prefix].
    destruct (Ascii.ascii_dec _ c) as [<- | Hc].
    + destruct s as [| c' s]; [done |].
      cbn [String.prefix].
      destruct (Ascii.ascii_dec _ c') as [<- | Hc'].
      * rewrite prefix_empty. cbn [String.length Nat.sub String.app PyStr.replace_from].
        apply IH. simpl in Hlen. lia.
      * cbn [PyStr.contains String.prefix].
        destruct (Ascii.ascii_dec _ _); [| done].
        revert Hs. cbn [PyStr.replace_from String.prefix].
        destruct (Ascii.ascii_dec _ c'); [done |].
        intros Hs. cbn [String.prefix].
        destruct (Ascii.ascii_dec _ c'); [done |].
        exact Hs.
    + cbn [PyStr.contains String.prefix].
      destruct (Ascii.ascii_dec _ c); [done |].
      exact Hs.
Qed.

(** What [message.replace("**", "")] returns holds no "**". *)
Lemma replace_stars_clean (s : string) :
  PyStr.contains "**" (PyStr.replace "**" "" s) = false.
Proof. apply (replace_stars_bounded (String.length s)). lia. Qed.

Lemma fallback_without_stars :
  PyStr.replace "**" "" fallback_message = fallback_message.
Proof. reflexivity. Qed.

(** ** The generator *)

Lemma get_dict (m : gmap string json) (k : string) (d : json) :
  Py.get (JObj m) k d = Return (default d (m !! k)).
Proof. simpl. by destruct (m !! k). Qed.

Lemma generate_motivation_dict (e : env) (about : gmap string json) (w : world) :
  generate_motivation e (JObj about) w = ask_model e (prompt_for e about) w.
Proof.
  unfold generate_motivation, mbind, M_bind, lift. by rewrite !get_dict.
Qed.

Lemma ask_model_returns (e : env) (prompt : string) (w : world) :
  ∃ (msg : string) (evs : list event),
    ask_model e prompt w
      = (Return msg, appended (GenerateContent prompt generation_config :: evs) w) ∧
    connections evs = 0 ∧
    (unusable (generate_content e prompt generation_config) →
     msg = fallback_message).
Proof.
  unfold ask_model, appended, log. simpl.
  destruct (generate_content e prompt generation_config)
    as [x | [[[x | s]] |]] eqn:Hg; simpl.
  - eexists _, [_]. rewrite <- app_assoc. done.
  - eexists _, [_]. rewrite <- app_assoc. done.
  - destruct (String.eqb_spec s "") as [-> | Hne]; simpl.
    + by eexists _, [].
    + eexists _, []. repeat split; try done.
      inversion 1; congruence.
  - by eexists _, [].
Qed.

Lemma About_fields_nonempty (a : About) : About_fields a ≠ ∅.
Proof. unfold About_fields. apply insert_non_empty. Qed.

Lemma prompt_for_profile (e : env) (a : About) :
  prompt_for e (About_fields a)
  = build_prompt (strftime (today e)) (random_choice e tones)
      (background a) (dreams a) (challenges a) (values a).
Proof. by destruct a. Qed.

(** ** The notifier *)

Lemma send_email_succeeds (cfg : config) (e : env) (s b t : string) (w : world) :
  smtp_succeeds e →
  send_email cfg e s b t w
  = (Return (),
     appended [SmtpConnect (SMTP_SERVER cfg) (SMTP_PORT cfg); SmtpStartTls;
               SmtpLogin (EMAIL cfg) (EMAIL_PASSWORD cfg);
               SmtpSendMessage (mail cfg s b t); SmtpQuit] w).
Proof.
  intros (Hc & Ht & Hl & Hs & Hq).
  unfold send_email, with_exit, call, mbind, M_bind, appended, log.
  rewrite Hc, Ht, Hl, Hs, Hq. simpl. by rewrite <- !app_assoc.
Qed.

Lemma send_email_fails (cfg : config) (e : env) (s b t : string) (w : world)
    (x : exn) :
  smtp_failure e = Some x →
  ∃ (x' : exn) (evs : list event),
    send_email cfg e s b t w
    = (Raise (LibraryError x'),
       appended (SmtpConnect (SMTP_SERVER cfg) (SMTP_PORT cfg) :: evs) w) ∧
    connections evs = 0 ∧
    (∀ msg, SmtpSendMessage msg ∈ evs → smtp_send_message e = Some x) ∧
    (x' = x ∨ smtp_quit e = Some x').
Proof.
  unfold smtp_failure, send_email, with_exit, call, mbind, M_bind, appended, log.
  intros Hf.
  destruct (smtp_connect e) as [xc|].
  { injection Hf as ->. exists x, []. simpl. repeat split; auto.
    intros msg Hin. not_in_list Hin. }
  destruct (smtp_starttls e) as [xt|].
  { injection Hf as ->. simpl.
    destruct (smtp_quit e) as [xq|]; simpl; rewrite <- !app_assoc; simpl.
    - exists xq, [SmtpStartTls; SmtpQuit]. repeat split; auto.
      intros msg Hin. not_in_list Hin.
    - exists x, [SmtpStartTls; SmtpQuit]. repeat split; auto.
      intros msg Hin. not_in_list Hin. }
  destruct (smtp_login e) as [xl|].
  { injection Hf as ->. simpl.
    destruct (smtp_quit e) as [xq|]; simpl; rewrite <- !app_assoc; simpl.
    - exists xq, [SmtpStartTls; SmtpLogin (EMAIL cfg) (EMAIL_PASSWORD cfg); SmtpQuit].
      repeat split; auto. intros msg Hin. not_in_list Hin.
    - exists x, [SmtpStartTls; SmtpLogin (EMAIL cfg) (EMAIL_PASSWORD cfg); SmtpQuit].
      repeat split; auto. intros msg Hin. not_in_list Hin. }
  rewrite Hf. simpl.
  destruct (smtp_quit e) as [xq|]; simpl; rewrite <- !app_assoc; simpl.
  - eexists xq, [_; _; _; _]. repeat split; auto.
  - eexists x, [_; _; _; _]. repeat split; auto.
Qed.

(** ** The motivation request *)

Lemma deliver_dict (cfg : config) (e : env) (about : gmap string json) (w : world) :
  ∃ (msg : string) (evs : list event),
    generate_motivation e (JObj about) w
      = (Return msg,
         appended (GenerateContent (prompt_for e about) generation_config :: evs) w) ∧
    connections evs = 0 ∧
    (unusable (generate_content e (prompt_for e about) generation_config) →
     msg = fallback_message) ∧
    deliver cfg e (JObj about) w
    = (send_email cfg e "Your Daily Motivation" (PyStr.replace "**" "" msg) recipient;;
       mret (answer (PyStr.replace "**" "" msg)))
        (appended (GenerateContent (prompt_for e about) generation_config :: evs) w).
Proof.
  destruct (ask_model_returns e (prompt_for e about) w) as (msg & evs & Hm & Hc & Hf).
  exists msg, evs. rewrite generate_motivation_dict. repeat split; try done.
  unfold deliver. unfold mbind at 1, M_bind at 1.
  by rewrite generate_motivation_dict, Hm.
Qed.

Lemma dict_truthy (m : gmap string json) : m ≠ ∅ → Py.truthy (JObj m) = true.
Proof. intros H. simpl. by rewrite bool_decide_eq_false_2. Qed.

(** C2: for every about dict [generate_motivation] returns a message and
    raises nothing; when the generation call raises, or its response is
    missing, unreadable or empty, the message is the fallback sentence,
    and a motivation request on a store with that (non-empty) about
    section answers 200 with the fallback as message and mails it,
    provided the SMTP session succeeds. *)
Theorem generate_motivation_never_fails (e : env) (about : gmap string json)
    (w : world) :
  (∃ msg w', generate_motivation e (JObj about) w = (Return msg, w')) ∧
  (unusable (generate_content e (prompt_for e about) generation_config) →
   fst (generate_motivation e (JObj about) w) = Return fallback_message ∧
   ∀ (cfg : config) (doc user : gmap string json),
     document w = JObj doc →
     doc !! "user" = Some (JObj user) →
     user !! "about" = Some (JObj about) →
     about ≠ ∅ →
     smtp_succeeds e →
     fst (motivation cfg e w) = Return (answer fallback_message) ∧
     status_of (fst (motivation cfg e w)) = 200%Z ∧
     SmtpSendMessage (mail cfg "Your Daily Motivation" fallback_message recipient)
       ∈ events (snd (motivation cfg e w))).
Proof.
  rewrite generate_motivation_dict.
  destruct (ask_model_returns e (prompt_for e about) w) as (msg & evs & Hg & _ & Hf).
  split; [by eauto |].
  intros Hu. rewrite Hg. split; [by rewrite (Hf Hu) |].
  intros cfg doc user Hdoc Huser Habout Hne Hsmtp.
  rewrite (motivation_delivers cfg e doc (JObj user) (JObj about) w);
    [| done | done | simpl; by rewrite Habout | by apply dict_truthy].
  destruct (deliver_dict cfg e about w) as (msg' & evs' & _ & _ & Hf' & ->).
  rewrite (Hf' Hu), fallback_without_stars.
  unfold mbind, M_bind. rewrite send_email_succeeds by done. simpl.
  repeat split. rewrite !elem_of_app. right.
  do 3 apply list_elem_of_further. apply list_elem_of_here.
Qed.

Lemma generate_motivation_never_fails_witness :
  fst (generate_motivation Sample.env_api_down (About_dict Sample.about1) Sample.w1)
    = Return fallback_message ∧
  fst (motivation Sample.cfg Sample.env_api_down Sample.w1)
    = Return (answer fallback_message) ∧
  status_of (fst (motivation Sample.cfg Sample.env_api_down Sample.w1)) = 200%Z.
Proof.
  destruct (generate_motivation_never_fails Sample.env_api_down
              (About_fields Sample.about1) Sample.w1) as [_ H].
  destruct (H (unusable_raises Sample.timeout)) as [Hg Hm].
  destruct (Hm Sample.cfg {["user" := UserData_dict Sample.user1]}
              (UserData_fields Sample.user1) eq_refl eq_refl eq_refl
              (About_fields_nonempty Sample.about1))
    as (Hr & Hs & _).
  { repeat split. }
  auto.
Defined.

(** What the SMTP session of [send_email] does, in every environment. *)
Lemma send_email_outcome (cfg : config) (e : env) (s b t : string) (w : world) :
  ∃ (r : result ()) (evs : list event),
    send_email cfg e s b t w
    = (r, appended (SmtpConnect (SMTP_SERVER cfg) (SMTP_PORT cfg) :: evs) w) ∧
    connections evs = 0 ∧
    match r with
    | Return _ => smtp_succeeds e ∧ SmtpSendMessage (mail cfg s b t) ∈ evs
    | Raise x => ∃ x', x = LibraryError x'
    end.
Proof.
  unfold send_email, with_exit, call, mbind, M_bind, appended, log, smtp_succeeds.
  destruct (smtp_connect e) as [xc|].
  { eexists _, []. simpl. repeat split. by eexists. }
  destruct (smtp_starttls e) as [xt|], (smtp_login e) as [xl|],
    (smtp_send_message e) as [xs|], (smtp_quit e) as [xq|];
    simpl; rewrite <- ?app_assoc; simpl;
    (eexists _, _; split; [reflexivity |]; split; [reflexivity |]);
    try (by eexists).
  repeat split. do 2 apply list_elem_of_further. apply list_elem_of_here.
Qed.

(** C7: with a stored user dict, an about section whose four fields
    are all empty strings does not stop the request: it is not answered
    400, the model is asked and the SMTP session opened, and when that
    session succeeds the request answers 200 and a message was handed
    over; and when the about entry, if there is one, is a dict, the 400
    "No about section found" is raised exactly when the entry is absent
    or the empty dict. *)
Theorem motivation_about_section (cfg : config) (e : env)
    (doc user : gmap string json) (w : world)
    (Hdoc : document w = JObj doc) (Huser : doc !! "user" = Some (JObj user)) :
  (user !! "about" = Some (About_dict (mkAbout "" "" "" "")) →
   fst (motivation cfg e w) ≠ Raise (HTTPException 400 "No about section found") ∧
   ∃ (prompt : string) (evs : list event),
     events (snd (motivation cfg e w))
     = events w ++ GenerateContent prompt generation_config :: evs ∧
     SmtpConnect (SMTP_SERVER cfg) (SMTP_PORT cfg) ∈ evs ∧
     (smtp_succeeds e →
      status_of (fst (motivation cfg e w)) = 200%Z ∧
      ∃ body, SmtpSendMessage (mail cfg "Your Daily Motivation" body recipient) ∈ evs)) ∧
  ((∀ v, user !! "about" = Some v → ∃ about : gmap string json, v = JObj about) →
   (fst (motivation cfg e w) = Raise (HTTPException 400 "No about section found")
    ↔ user !! "about" = None ∨ user !! "about" = Some (JObj ∅))).
Proof.
  assert (Hrun : ∀ about : gmap string json,
    user !! "about" = Some (JObj about) → about ≠ ∅ →
    ∃ (msg : string) (r : result ()) (evs evs' : list event),
      motivation cfg e w
      = (match r with
         | Return _ => Return (answer (PyStr.replace "**" "" msg))
         | Raise x => Raise x
         end,
         appended ((GenerateContent (prompt_for e about) generation_config :: evs)
                   ++ SmtpConnect (SMTP_SERVER cfg) (SMTP_PORT cfg) :: evs') w) ∧
      (smtp_succeeds e → r = Return ()) ∧
      match r with
      | Return _ =>
          SmtpSendMessage (mail cfg "Your Daily Motivation"
                             (PyStr.replace "**" "" msg) recipient) ∈ evs'
      | Raise x => ∃ x', x = LibraryError x'
      end).
  { intros about Ha Hne.
    rewrite (motivation_delivers cfg e doc (JObj user) (JObj about) w);
      [| done | done | simpl; by rewrite Ha | by apply dict_truthy].
    destruct (deliver_dict cfg e about w) as (msg & evs & _ & _ & _ & ->).
    unfold mbind, M_bind.
    destruct (send_email_outcome cfg e "Your Daily Motivation"
                (PyStr.replace "**" "" msg) recipient
                (appended (GenerateContent (prompt_for e about) generation_config :: evs) w))
      as (r & evs' & Hs & _ & Hr).
    exists msg, r, evs, evs'. rewrite Hs, appended_appended.
    split; [by destruct r as [[] | x] |]. split.
    - intros Hok. rewrite (send_email_succeeds cfg e _ _ _ _ Hok) in Hs. congruence.
    - destruct r as [[] | x]; [apply Hr | done]. }
  split.
  - intros Ha.
    destruct (Hrun _ Ha (About_fields_nonempty _))
      as (msg & r & evs & evs' & -> & Hok & Hr).
    simpl. split.
    { destruct r as [[] | x]; [done |]. destruct Hr as [x' ->]. done. }
    eexists _, _. split; [reflexivity |]. split.
    { rewrite elem_of_app. right. apply list_elem_of_here. }
    intros Hsmtp. rewrite (Hok Hsmtp) in *. split; [done |].
    eexists. rewrite elem_of_app. right.
    apply list_elem_of_further. apply Hr.
  - intros Hty. destruct (user !! "about") as [v|] eqn:Ha.
    + destruct (Hty v eq_refl) as [about ->].
      destruct (decide (about = ∅)) as [-> | Hne].
      * split; [by right |]. intros _.
        destruct (document_cases _ _ Hdoc) as [Hf | [_ ->]];
          [| by rewrite lookup_empty in Huser].
        destruct w as [f ev]. simpl in Hf. subst f.
        unfold motivation, read_data, mbind, M_bind, lift, raise. simpl.
        rewrite Huser. simpl. by rewrite Ha.
      * destruct (Hrun about eq_refl Hne) as (msg & r & evs & evs' & -> & _ & Hr).
        simpl. split.
        -- destruct r as [[] | x]; [done |]. destruct Hr as [x' ->]. done.
        -- intros [? | [= ->]]; done.
    + split; [by left |]. intros _.
      destruct (document_cases _ _ Hdoc) as [Hf | [_ ->]];
        [| by rewrite lookup_empty in Huser].
      destruct w as [f ev]. simpl in Hf. subst f.
      unfold motivation, read_data, mbind, M_bind, lift, raise. simpl.
      rewrite Huser. simpl. by rewrite Ha.
Qed.

Lemma motivation_about_section_witness :
  let w := snd (create_user (mkUserData "A" "Student" (mkAbout "" "" "" "")) fresh) in
  fst (motivation Sample.cfg Sample.env_ok w)
    ≠ Raise (HTTPException 400 "No about section found") ∧
  status_of (fst (motivation Sample.cfg Sample.env_ok w)) = 200%Z.
Proof.
  intros w.
  destruct (motivation_about_section Sample.cfg Sample.env_ok
              {["user" := UserData_dict (mkUserData "A" "Student" (mkAbout "" "" "" ""))]}
              (UserData_fields (mkUserData "A" "Student" (mkAbout "" "" "" "")))
              w eq_refl eq_refl) as [H _].
  destruct (H eq_refl) as (Hne & prompt & evs & _ & _ & Hok).
  split; [exact Hne |].
  apply Hok. repeat split.
Defined.

(** Without the assumption that the about entry is a dict: the 400 is
    raised exactly when the entry is absent or false as a Python value
    (the empty dict, [None], [False], 0, the empty string, the empty
    list). *)
Lemma generate_motivation_raises (e : env) (about : json) (w : world) (x : exception) :
  fst (generate_motivation e about w) = Raise x → x = AttributeError.
Proof.
  destruct about as [| | | | | m];
    try (unfold generate_motivation, mbind, M_bind, lift; simpl; congruence).
  rewrite generate_motivation_dict.
  destruct (ask_model_returns e (prompt_for e m) w) as (msg & evs & -> & _).
  done.
Qed.

Lemma deliver_raises (cfg : config) (e : env) (about : json) (w : world)
    (x : exception) :
  fst (deliver cfg e about w) = Raise x →
  x = AttributeError ∨ ∃ x', x = LibraryError x'.
Proof.
  unfold deliver, mbind, M_bind.
  pose proof (generate_motivation_raises e about w) as Hg.
  destruct (generate_motivation e about w) as [[msg | y] w1]; simpl in *.
  - destruct (send_email_outcome cfg e "Your Daily Motivation"
                (PyStr.replace "**" "" msg) recipient w1) as (r & evs & -> & _ & Hr).
    destruct r as [[] | y]; simpl; [done |].
    intros [= <-]. by right.
  - intros [= <-]. left. by apply Hg.
Qed.

Lemma motivation_no_about_iff (cfg : config) (e : env)
    (doc user : gmap string json) (w : world) :
  document w = JObj doc → doc !! "user" = Some (JObj user) →
  fst (motivation cfg e w) = Raise no_about
  ↔ Py.truthy (default (JObj ∅) (user !! "about")) = false.
Proof.
  intros Hdoc Hu.
  destruct (Py.truthy (default (JObj ∅) (user !! "about"))) eqn:Ht.
  - rewrite (motivation_delivers cfg e doc (JObj user) _ w Hdoc Hu (get_dict _ _ _) Ht).
    split; [| done]. intros Hd.
    destruct (deliver_raises _ _ _ _ _ Hd) as [? | [? ?]]; done.
  - split; [done |]. intros _.
    destruct (document_cases _ _ Hdoc) as [Hf | [_ ->]];
      [| by rewrite lookup_empty in Hu].
    destruct w as [f ev]. simpl in Hf. subst f.
    unfold motivation, read_data, mbind, M_bind, lift, raise.
    cbn [file]. simpl Py.contains. rewrite Hu. cbn [negb bool_decide decide_rel].
    simpl. rewrite Hu. rewrite get_dict, Ht. done.
Qed.

(** A request that returns went through every step of [motivation]. *)
Lemma motivation_returns_inv (cfg : config) (e : env) (w : world) (body : json) :
  fst (motivation cfg e w) = Return body →
  ∃ (doc : gmap string json) (user about : json),
    file w = Some (JObj doc) ∧ doc !! "user" = Some user ∧
    Py.get user "about" (JObj ∅) = Return about ∧
    Py.truthy about = true ∧
    motivation cfg e w = deliver cfg e about w.
Proof.
  intros Hret.
  destruct w as [[d|] ev]; [| done].
  assert (∃ doc user, d = JObj doc ∧ doc !! "user" = Some user) as (doc & user & -> & Hu).
  { revert Hret. unfold motivation, read_data.
    unfold mbind at 1, M_bind at 1. simpl.
    unfold mbind at 1, M_bind at 1, lift at 1.
    destruct (Py.contains "user" d) as [[|]|]; simpl; try done.
    unfold mbind at 1, M_bind at 1, lift at 1.
    destruct d as [| | | | |doc]; simpl; try done.
    destruct (doc !! "user") as [user|] eqn:Hu; [by eauto | done]. }
  exists doc, user.
  destruct (Py.get user "about" (JObj ∅)) as [about|] eqn:Ha.
  - exists about.
    destruct (Py.truthy about) eqn:Ht.
    + repeat split; try done. by apply (motivation_delivers cfg e doc user about).
    + revert Hret. unfold motivation, read_data, mbind, M_bind, lift, raise. simpl.
      rewrite Hu. simpl. by rewrite Ha, Ht.
  - revert Hret. unfold motivation, read_data, mbind, M_bind, lift, raise. simpl.
    rewrite Hu. simpl. by rewrite Ha.
Qed.

(** C8: a motivation request that returns answers the dict with the two
    keys "motivation" and "email_sent_to": the first is what
    [generate_motivation] returned for the stored about section after
    [replace("**", "")], it holds no "**" and is the text that was
    mailed; the second is the fixed recipient. *)
Theorem motivation_answer (cfg : config) (e : env) (w : world) (body : json)
    (Hret : fst (motivation cfg e w) = Return body) :
  ∃ (user about : json) (generated : string),
    Py.getitem (document w) "user" = Return user ∧
    Py.get user "about" (JObj ∅) = Return about ∧
    fst (generate_motivation e about w) = Return generated ∧
    body = JObj (<["motivation" := JStr (PyStr.replace "**" "" generated)]>
                 (<["email_sent_to" := JStr "shuaibkaloor123@gmail.com"]> ∅)) ∧
    PyStr.contains "**" (PyStr.replace "**" "" generated) = false ∧
    SmtpSendMessage (mail cfg "Your Daily Motivation"
                       (PyStr.replace "**" "" generated)
                       "shuaibkaloor123@gmail.com")
      ∈ events (snd (motivation cfg e w)).
Proof.
  destruct (motivation_returns_inv cfg e w body Hret)
    as (doc & user & about & Hf & Hu & Ha & _ & Hm).
  rewrite Hm in *. clear Hm.
  exists user, about.
  unfold deliver, mbind, M_bind in *.
  destruct (generate_motivation e about w) as [[generated | x] w1]; [| done].
  exists generated.
  destruct (send_email_outcome cfg e "Your Daily Motivation"
              (PyStr.replace "**" "" generated) recipient w1)
    as (r & evs & Hs & _ & Hr).
  rewrite Hs in *. destruct r as [[] | x]; [| done].
  simpl in *. injection Hret as <-.
  repeat split; try done.
  - unfold document. rewrite Hf. simpl. by rewrite Hu.
  - apply replace_stars_clean.
  - rewrite elem_of_app. right. apply list_elem_of_further. apply Hr.
Qed.

Lemma motivation_answer_witness :
  ∃ generated : string,
    answer "Keep going, one step at a time."
    = JObj (<["motivation" := JStr (PyStr.replace "**" "" generated)]>
            (<["email_sent_to" := JStr "shuaibkaloor123@gmail.com"]> ∅)) ∧
    PyStr.contains "**" (PyStr.replace "**" "" generated) = false.
Proof.
  destruct (motivation_answer Sample.cfg Sample.env_ok Sample.w1
              (answer "Keep going, one step at a time.") eq_refl)
    as (user & about & generated & _ & _ & _ & Hb & Hc & _).
  by exists generated.
Defined.

(** ** SMTP failures *)

Lemma connections_app (l l' : list event) :
  connections (l ++ l') = connections l + connections l'.
Proof. unfold connections. by rewrite List.filter_app, length_app. Qed.

(** C9: when a step of the SMTP session raises (connection, TLS
    upgrade, authentication or send), [send_email] raises: the
    exception of that step, or the one raised while the session is
    closed; a motivation request that reached the notifier raises the
    same way, is answered 500, and opened one session only. *)
Theorem smtp_failure_propagates (cfg : config) (e : env) (x : exn)
    (Hfail : smtp_failure e = Some x) :
  (∀ (subject body to_email : string) (w : world),
     ∃ (x' : exn) (evs : list event),
       send_email cfg e subject body to_email w
       = (Raise (LibraryError x'), appended evs w) ∧
       connections evs = 1 ∧
       (x' = x ∨ smtp_quit e = Some x')) ∧
  (∀ (doc user about : gmap string json) (w : world),
     document w = JObj doc →
     doc !! "user" = Some (JObj user) →
     user !! "about" = Some (JObj about) →
     about ≠ ∅ →
     ∃ (x' : exn) (evs : list event),
       motivation cfg e w = (Raise (LibraryError x'), appended evs w) ∧
       connections evs = 1 ∧
       (x' = x ∨ smtp_quit e = Some x') ∧
       status_of (fst (motivation cfg e w)) = 500%Z).
Proof.
  split.
  - intros s b t w.
    destruct (send_email_fails cfg e s b t w x Hfail) as (x' & evs & -> & Hc & _ & Hx).
    exists x'. eexists. split; [reflexivity |]. split; [| done].
    change (SmtpConnect (SMTP_SERVER cfg) (SMTP_PORT cfg) :: evs)
      with ([SmtpConnect (SMTP_SERVER cfg) (SMTP_PORT cfg)] ++ evs).
    by rewrite connections_app, Hc.
  - intros doc user about w Hdoc Hu Ha Hne.
    rewrite (motivation_delivers cfg e doc (JObj user) (JObj about) w);
      [| done | done | simpl; by rewrite Ha | by apply dict_truthy].
    destruct (deliver_dict cfg e about w) as (msg & evs0 & _ & Hc0 & _ & ->).
    unfold mbind, M_bind.
    destruct (send_email_fails cfg e "Your Daily Motivation"
                (PyStr.replace "**" "" msg) recipient
                (appended (GenerateContent (prompt_for e about) generation_config :: evs0) w)
                x Hfail)
      as (x' & evs & -> & Hc & _ & Hx).
    exists x'. eexists. rewrite appended_appended.
    split; [reflexivity |]. split; [| done].
    change (GenerateContent (prompt_for e about) generation_config :: evs0)
      with ([GenerateContent (prompt_for e about) generation_config] ++ evs0).
    change (SmtpConnect (SMTP_SERVER cfg) (SMTP_PORT cfg) :: evs)
      with ([SmtpConnect (SMTP_SERVER cfg) (SMTP_PORT cfg)] ++ evs).
    by rewrite !connections_app, Hc0, Hc.
Qed.

Lemma smtp_failure_propagates_witness :
  ∃ (x' : exn) (evs : list event),
    motivation Sample.cfg Sample.env_smtp_down Sample.w1
    = (Raise (LibraryError x'), appended evs Sample.w1) ∧
    connections evs = 1 ∧
    status_of (fst (motivation Sample.cfg Sample.env_smtp_down Sample.w1)) = 500%Z.
Proof.
  destruct (proj2 (smtp_failure_propagates Sample.cfg Sample.env_smtp_down _ eq_refl)
              {["user" := UserData_dict Sample.user1]}
              (UserData_fields Sample.user1) (About_fields Sample.about1)
              Sample.w1 eq_refl eq_refl eq_refl
              (About_fields_nonempty Sample.about1))
    as (x' & evs & Hm & Hc & _ & Hs).
  exists x', evs. split; [exact Hm |]. split; [exact Hc | exact Hs].
Defined.

(** ** Name and role do not reach the generator *)

(** C10: for two stores holding profiles with the same about record,
    whatever their names and roles, and the same environment (tone,
    date, API and SMTP behaviour), [motivation] asks the model with the
    same prompt, built from the date, the tone and the four about
    fields only, makes the same calls after it and returns the same
    result. *)
Theorem motivation_ignores_name_and_role (cfg : config) (e : env)
    (p1 p2 : UserData) (w1 w2 : world)
    (H1 : stores w1 p1) (H2 : stores w2 p2) (Habout : about p1 = about p2) :
  ∃ (r : result json) (evs : list event),
    let prompt :=
      build_prompt (strftime (today e)) (random_choice e tones)
        (background (about p1)) (dreams (about p1))
        (challenges (about p1)) (values (about p1)) in
    motivation cfg e w1
      = (r, appended (GenerateContent prompt generation_config :: evs) w1) ∧
    motivation cfg e w2
      = (r, appended (GenerateContent prompt generation_config :: evs) w2).
Proof.
  assert (Hrun : ∀ (p : UserData) (w : world), stores w p →
            motivation cfg e w = deliver cfg e (About_dict (about p)) w).
  { intros p w (doc & Hdoc & Hu).
    by apply (motivation_delivers cfg e doc (UserData_dict p)). }
  rewrite (Hrun p1 w1 H1), (Hrun p2 w2 H2), <- Habout.
  unfold About_dict.
  destruct (deliver_dict cfg e (About_fields (about p1)) fresh)
    as (msg & evs0 & _ & _ & _ & Hd).
  pose proof (uniform_deliver cfg e (JObj (About_fields (about p1)))) as Hun.
  rewrite (Hun w1), (Hun w2).
  set (k := (send_email cfg e "Your Daily Motivation" (PyStr.replace "**" "" msg) recipient;;
             mret (answer (PyStr.replace "**" "" msg))) : M json) in Hd.
  assert (Hk : uniform k).
  { apply uniform_bind; [apply uniform_send_email | intros _; apply uniform_ret]. }
  rewrite Hd, (Hk (appended _ fresh)). simpl.
  eexists _, _. rewrite prompt_for_profile. split; reflexivity.
Qed.

Lemma motivation_ignores_name_and_role_witness :
  fst (motivation Sample.cfg Sample.env_ok Sample.w1)
  = fst (motivation Sample.cfg Sample.env_ok Sample.w2).
Proof.
  assert (Hs1 : stores Sample.w1 Sample.user1).
  { eexists. split; [reflexivity |]. apply lookup_singleton_eq. }
  assert (Hs2 : stores Sample.w2 Sample.user2).
  { eexists. split; [reflexivity |]. apply lookup_singleton_eq. }
  destruct (motivation_ignores_name_and_role Sample.cfg Sample.env_ok
              Sample.user1 Sample.user2 Sample.w1 Sample.w2 Hs1 Hs2 eq_refl)
    as (r & evs & Hm1 & Hm2).
  by rewrite Hm1, Hm2.
Defined.

(** * Further properties of the handlers *)

(** ** The store under the read-only endpoints *)

Lemma deliver_file (cfg : config) (e : env) (about : json) (w : world) :
  file (snd (deliver cfg e about w)) = file w.
Proof. by rewrite (uniform_deliver cfg e about w). Qed.

Lemma motivation_file (cfg : config) (e : env) (w : world) :
  file (snd (motivation cfg e w)) = Some (document w).
Proof.
  destruct w as [[d|] ev]; [| done].
  unfold document. cbn [file default].
  destruct (Py.contains "user" d) as [[|]|] eqn:Hc;
    [| by unfold motivation, read_data, mbind, M_bind, lift, raise; cbn [file]; rewrite Hc ..].
  destruct (Py.getitem d "user") as [user|] eqn:Hg;
    [| by unfold motivation, read_data, mbind, M_bind, lift, raise; cbn [file];
          rewrite Hc; cbn [negb]; rewrite Hg].
  assert (∃ doc, d = JObj doc ∧ doc !! "user" = Some user) as (doc & -> & Hu).
  { destruct d as [| | | | | doc]; try done. exists doc. split; [done |].
    simpl in Hg. by destruct (doc !! "user") as [u|]; [injection Hg as -> |]. }
  destruct (Py.get user "about" (JObj ∅)) as [about|] eqn:Ha.
  - destruct (Py.truthy about) eqn:Ht.
    + rewrite (motivation_delivers cfg e doc user about
                 {| file := Some (JObj doc); events := ev |} eq_refl Hu Ha Ht).
      apply deliver_file.
    + unfold motivation, read_data, mbind, M_bind, lift, raise. cbn [file].
      rewrite Hc. cbn [negb]. rewrite Hg, Ha, Ht. done.
  - unfold motivation, read_data, mbind, M_bind, lift, raise. cbn [file].
    rewrite Hc. cbn [negb]. rewrite Hg, Ha. done.
Qed.

Lemma get_user_file (w : world) :
  file (snd (get_user w)) = Some (document w).
Proof.
  destruct w as [[d|] ev]; [| done].
  unfold get_user, read_data, mbind, M_bind, lift, raise, mret, M_ret, document.
  cbn [file default].
  destruct (Py.contains "user" d) as [[|]|]; simpl; try done.
  by destruct (Py.getitem d "user").
Qed.

(** X1: whatever the file holds, [get_user] and [motivation] leave in
    the file exactly the document they read (the empty document when
    there was no file), and neither [get_user] nor [update_user] nor
    [create_user] makes a call to the outside. *)
Theorem read_only_endpoints (cfg : config) (e : env) (w : world) :
  file (snd (get_user w)) = Some (document w) ∧
  file (snd (motivation cfg e w)) = Some (document w) ∧
  events (snd (get_user w)) = events w ∧
  (∀ update, events (snd (update_user update w)) = events w) ∧
  (∀ user, events (snd (create_user user w)) = events w).
Proof.
  split; [apply get_user_file |].
  split; [apply motivation_file |].
  split; [| split; [| done]].
  - destruct w as [[d|] ev]; [| done].
    unfold get_user, read_data, mbind, M_bind, lift, raise, mret, M_ret.
    cbn [file].
    destruct (Py.contains "user" d) as [[|]|]; simpl; try done.
    by destruct (Py.getitem d "user").
  - intros update.
    destruct w as [[d|] ev]; [| done].
    unfold update_user, read_data, write_data, mbind, M_bind, lift, raise,
      mret, M_ret. cbn [file].
    destruct (Py.contains "user" d) as [[|]|]; simpl; try done.
    destruct (upd_role update) as [r|];
      [destruct (negb (String.eqb r "")); simpl |];
      try destruct (set_user_item d "role" (JStr r)) as [d1|]; simpl; try done;
      destruct (upd_about update) as [a|]; simpl;
      try (destruct (set_user_item _ "about" (About_dict a)) as [d2|]; simpl; try done);
      by destruct (Py.getitem _ "user").
Qed.

(** ** What [update_user] can do *)

Lemma set_user_item_inv (data data' : json) (key : string) (x : json) :
  set_user_item data key x = Return data' →
  ∃ m um : gmap string json,
    data = JObj m ∧ m !! "user" = Some (JObj um) ∧
    data' = JObj (<["user" := JObj (<[key := x]> um)]> m).
Proof.
  unfold set_user_item.
  destruct data as [| | | | | m]; try done. simpl.
  destruct (m !! "user") as [[| | | | | um]|] eqn:Hu; try done. simpl.
  intros [= <-]. by exists m, um.
Qed.

Lemma set_user_item_keeps_user (data data' : json) (key : string) (x : json) :
  set_user_item data key x = Return data' →
  ∃ user, Py.getitem data' "user" = Return user.
Proof.
  intros (m & um & -> & _ & ->)%set_user_item_inv.
  eexists. simpl. by rewrite lookup_insert_eq.
Qed.

Lemma contains_getitem (d : json) (k : string) (x : exception) :
  Py.contains k d = Return true → Py.getitem d k = Raise x → x = TypeError.
Proof.
  destruct d as [| | | | | m]; simpl; try congruence.
  intros [= H]. apply bool_decide_eq_true in H as [v ->]. done.
Qed.

(** Every run of [update_user]: it raises, having written nothing but
    the document it read, or it returns, having written once. *)
Lemma update_user_outcome (update : UpdateData) (w : world) :
  (∃ x, update_user update w = (Raise x, set_file (document w) w) ∧
        (x = not_found ∨ x = TypeError)) ∨
  (∃ body d, update_user update w = (Return body, set_file d w)).
Proof.
  destruct w as [[d|] ev]; [| left; exists not_found; by split; [| left]].
  unfold update_user, read_data, write_data, mbind, M_bind, lift, raise,
    mret, M_ret, document, set_file. cbn [file events default].
  destruct (Py.contains "user" d) as [[|] | x0] eqn:Hc; cbn [negb].
  2: { left. exists not_found. by split; [| left]. }
  2: { left. exists x0. split; [done |]. right.
       destruct d; simpl in Hc; congruence. }
  assert (Hfinish : ∀ d' : json,
    (∃ user, Py.getitem d' "user" = Return user) →
    ∃ body d0,
      match Py.getitem d' "user" with
      | Return a =>
          (Return (JObj (<["message" := JStr "User data updated successfully"]>
                         (<["data" := a]> ∅))),
           {| file := Some d'; events := ev |})
      | Raise e0 => (Raise e0, {| file := Some d'; events := ev |})
      end = (Return body, {| file := Some d0; events := ev |})).
  { intros d' [user ->]. by eexists _, _. }
  assert (Hsame :
    (∃ x,
      match Py.getitem d "user" with
      | Return a =>
          (Return (JObj (<["message" := JStr "User data updated successfully"]>
                         (<["data" := a]> ∅))),
           {| file := Some d; events := ev |})
      | Raise e0 => (Raise e0, {| file := Some d; events := ev |})
      end = (Raise x, {| file := Some d; events := ev |}) ∧
      (x = not_found ∨ x = TypeError)) ∨
    (∃ body d0,
      match Py.getitem d "user" with
      | Return a =>
          (Return (JObj (<["message" := JStr "User data updated successfully"]>
                         (<["data" := a]> ∅))),
           {| file := Some d; events := ev |})
      | Raise e0 => (Raise e0, {| file := Some d; events := ev |})
      end = (Return body, {| file := Some d0; events := ev |}))).
  { destruct (Py.getitem d "user") as [user | x] eqn:Hg.
    - right. by eexists _, _.
    - left. exists x. split; [done |]. right. by eapply contains_getitem. }
  assert (Hraise : ∀ (key : string) (v : json) (x : exception),
            set_user_item d key v = Raise x → x = TypeError).
  { intros key v x. unfold set_user_item.
    destruct (Py.getitem d "user") as [user | y] eqn:Hg.
    - destruct user; simpl; try congruence.
      destruct d; simpl; congruence.
    - intros [= <-]. by eapply contains_getitem. }
  destruct (upd_role update) as [r|]; [destruct (negb (String.eqb r "")) eqn:Hr |];
    cbn [Py.truthy].
  - (* a role to store *)
    rewrite Hr.
    destruct (set_user_item d "role" (JStr r)) as [d1 | x] eqn:H1.
    2: { left. exists x. split; [done |]. right. by eapply Hraise. }
    destruct (upd_about update) as [a|].
    + destruct (set_user_item d1 "about" (About_dict a)) as [d2 | x] eqn:H2.
      * right. apply Hfinish. by eapply set_user_item_keeps_user.
      * apply set_user_item_inv in H1 as (m & um & -> & Hu & ->).
        unfold set_user_item in H2. simpl in H2.
        rewrite lookup_insert_eq in H2. done.
    + right. apply Hfinish. by eapply set_user_item_keeps_user.
  - (* an empty role *)
    rewrite Hr.
    destruct (upd_about update) as [a|]; [| apply Hsame].
    destruct (set_user_item d "about" (About_dict a)) as [d2 | x] eqn:H2.
    + right. apply Hfinish. by eapply set_user_item_keeps_user.
    + left. exists x. split; [done |]. right. by eapply Hraise.
  - (* no role *)
    destruct (upd_about update) as [a|]; [| apply Hsame].
    destruct (set_user_item d "about" (About_dict a)) as [d2 | x] eqn:H2.
    + right. apply Hfinish. by eapply set_user_item_keeps_user.
    + left. exists x. split; [done |]. right. by eapply Hraise.
Qed.



Lemma updated_idempotent (update : UpdateData) (p : UserData) :
  updated update (updated update p) = updated update p.
Proof.
  destruct update as [[r|] [a|]], p as [n r0 a0]; unfold updated; simpl;
    try done; by destruct (negb (String.eqb r "")).
Qed.

Lemma set_file_set_file (d d' : json) (w : world) :
  set_file d (set_file d' w) = set_file d w.
Proof. done. Qed.

Lemma stores_after_update (update : UpdateData) (p : UserData) (w : world) :
  stores w p → stores (snd (update_user update w)) (updated update p).
Proof.
  intros (doc & Hdoc & Hu).
  rewrite (update_user_stored update p doc w Hdoc Hu).
  eexists. split; [reflexivity |]. apply lookup_insert_eq.
Qed.

(** X3: on a stored profile [update_user] is idempotent: sending the
    same update a second time gives the same answer and leaves the
    world as the first call left it. *)
Theorem update_user_idempotent (update : UpdateData) (p : UserData) (w : world)
    (Hp : stores w p) :
  update_user update (snd (update_user update w)) = update_user update w.
Proof.
  destruct Hp as (doc & Hdoc & Hu).
  rewrite (update_user_stored update p doc w Hdoc Hu). simpl.
  rewrite (update_user_stored update (updated update p)
             (<["user" := UserData_dict (updated update p)]> doc)
             (set_file (JObj (<["user" := UserData_dict (updated update p)]> doc)) w)
             eq_refl (lookup_insert_eq _ _ _)).
  by rewrite updated_idempotent, insert_insert_eq, set_file_set_file.
Qed.

Lemma update_user_idempotent_witness :
  update_user (mkUpdateData (Some "Dev") (Some Sample.blank))
    (snd (update_user (mkUpdateData (Some "Dev") (Some Sample.blank)) Sample.w1))
  = update_user (mkUpdateData (Some "Dev") (Some Sample.blank)) Sample.w1.
Proof.
  apply (update_user_idempotent _ Sample.user1).
  eexists. split; [reflexivity |]. apply lookup_singleton_eq.
Defined.

(** X4: on a stored profile, updating the role and then the about
    record, or the about record and then the role, leaves the same
    world as the single update that carries both. *)
Theorem update_user_in_two_steps (r : string) (a : About) (p : UserData)
    (w : world) (Hp : stores w p) :
  let both := snd (update_user (mkUpdateData (Some r) (Some a)) w) in
  snd (update_user (mkUpdateData None (Some a))
         (snd (update_user (mkUpdateData (Some r) None) w))) = both ∧
  snd (update_user (mkUpdateData (Some r) None)
         (snd (update_user (mkUpdateData None (Some a)) w))) = both.
Proof.
  destruct Hp as (doc & Hdoc & Hu). simpl.
  rewrite !(update_user_stored _ p doc w Hdoc Hu). simpl.
  split.
  - rewrite (update_user_stored _ (updated (mkUpdateData (Some r) None) p)
               _ (set_file _ w) eq_refl (lookup_insert_eq _ _ _)).
    simpl. by rewrite insert_insert_eq, set_file_set_file.
  - rewrite (update_user_stored _ (updated (mkUpdateData None (Some a)) p)
               _ (set_file _ w) eq_refl (lookup_insert_eq _ _ _)).
    simpl. by rewrite insert_insert_eq, set_file_set_file.
Qed.

Lemma update_user_in_two_steps_witness :
  snd (update_user (mkUpdateData None (Some Sample.blank))
         (snd (update_user (mkUpdateData (Some "Dev") None) Sample.w1)))
  = snd (update_user (mkUpdateData (Some "Dev") (Some Sample.blank)) Sample.w1).
Proof.
  apply (update_user_in_two_steps "Dev" Sample.blank Sample.user1 Sample.w1).
  eexists. split; [reflexivity |]. apply lookup_singleton_eq.
Defined.

(** X5: on a stored profile [update_user] answers with the profile it
    stored, a following [get_user] returns that same profile, and no
    update changes the name. *)
Theorem update_user_answer (update : UpdateData) (p : UserData) (w : world)
    (Hp : stores w p) :
  ∃ p' : UserData,
    fst (update_user update w)
    = Return (JObj (<["message" := JStr "User data updated successfully"]>
                    (<["data" := UserData_dict p']> ∅))) ∧
    get_user (snd (update_user update w))
    = (Return (JObj {["data" := UserData_dict p']}), snd (update_user update w)) ∧
    name p' = name p.
Proof.
  destruct Hp as (doc & Hdoc & Hu).
  exists (updated update p).
  rewrite (update_user_stored update p doc w Hdoc Hu). simpl.
  split; [done |]. split; [| done].
  unfold get_user, read_data, mbind, M_bind, lift, raise, mret, M_ret. simpl.
  by rewrite lookup_insert_eq.
Qed.

Lemma update_user_answer_witness :
  ∃ p' : UserData,
    get_user (snd (update_user (mkUpdateData (Some "Dev") None) Sample.w1))
    = (Return (JObj {["data" := UserData_dict p']}),
       snd (update_user (mkUpdateData (Some "Dev") None) Sample.w1)) ∧
    name p' = "A".
Proof.
  destruct (update_user_answer (mkUpdateData (Some "Dev") None)
              Sample.user1 Sample.w1) as (p' & _ & Hg & Hn).
  { eexists. split; [reflexivity |]. apply lookup_singleton_eq. }
  by exists p'.
Defined.

(** ** What [motivation] can do *)

(** Every run of [motivation]: it stops before the generator, with the
    world as [read_data] left it, or it goes on with a true about
    value. *)
Lemma motivation_cases (cfg : config) (e : env) (w : world) :
  (∃ x, motivation cfg e w = (Raise x, set_file (document w) w) ∧
        (x = not_found ∨ x = no_about ∨ x = TypeError ∨ x = AttributeError)) ∨
  (∃ (doc : gmap string json) (user about : json),
     file w = Some (JObj doc) ∧ doc !! "user" = Some user ∧
     Py.get user "about" (JObj ∅) = Return about ∧
     Py.truthy about = true ∧
     motivation cfg e w = deliver cfg e about w).
Proof.
  destruct w as [[d|] ev]; [| left; exists not_found; by split; [| left]].
  unfold document, set_file. cbn [file events default].
  destruct (Py.contains "user" d) as [[|] | x0] eqn:Hc.
  2: { left. exists not_found. split; [| by left].
       unfold motivation, read_data, mbind, M_bind, lift, raise. cbn [file].
       by rewrite Hc. }
  2: { left. exists x0. split.
       - unfold motivation, read_data, mbind, M_bind, lift, raise. cbn [file].
         by rewrite Hc.
       - right. right. left. destruct d; simpl in Hc; congruence. }
  destruct (Py.getitem d "user") as [user | x0] eqn:Hg.
  2: { left. exists x0. split.
       - unfold motivation, read_data, mbind, M_bind, lift, raise. cbn [file].
         rewrite Hc. cbn [negb]. by rewrite Hg.
       - right. right. left. by eapply contains_getitem. }
  assert (∃ doc, d = JObj doc ∧ doc !! "user" = Some user) as (doc & -> & Hu).
  { destruct d as [| | | | | doc]; try done. exists doc. split; [done |].
    simpl in Hg. by destruct (doc !! "user") as [u|]; [injection Hg as -> |]. }
  destruct (Py.get user "about" (JObj ∅)) as [about | x0] eqn:Ha.
  - destruct (Py.truthy about) eqn:Ht.
    + right. exists doc, user, about. repeat split; try done.
      by apply (motivation_delivers cfg e doc user about).
    + left. exists no_about. split; [| by right; left].
      unfold motivation, read_data, mbind, M_bind, lift, raise. cbn [file].
      rewrite Hc. cbn [negb]. by rewrite Hg, Ha, Ht.
  - left. exists x0. split.
    + unfold motivation, read_data, mbind, M_bind, lift, raise. cbn [file].
      rewrite Hc. cbn [negb]. by rewrite Hg, Ha.
    + right. right. right. destruct user; simpl in Ha; try congruence.
      by destruct (m !! "about").
Qed.

(** X6: the HTTP errors of [motivation] are the 404 and the 400 of the
    source, and a request answered with one of them made no call to
    the model or to the SMTP server. *)
Theorem motivation_http_errors (cfg : config) (e : env) (w : world)
    (code : Z) (detail : string)
    (Hraise : fst (motivation cfg e w) = Raise (HTTPException code detail)) :
  ((code = 404%Z ∧ detail = "User not found") ∨
   (code = 400%Z ∧ detail = "No about section found")) ∧
  events (snd (motivation cfg e w)) = events w.
Proof.
  destruct (motivation_cases cfg e w)
    as [(x & Hm & Hx) | (doc & user & about & _ & _ & _ & _ & Hm)];
    rewrite Hm in *; simpl in *.
  - injection Hraise as Hx'. subst x. split; [| done].
    destruct Hx as [[= -> ->] | [[= -> ->] | [? | ?]]]; try done; auto.
  - destruct (deliver_raises _ _ _ _ _ Hraise) as [? | [? ?]]; done.
Qed.

Lemma motivation_http_errors_witness :
  events (snd (motivation Sample.cfg Sample.env_ok fresh)) = [].
Proof.
  exact (proj2 (motivation_http_errors Sample.cfg Sample.env_ok fresh
                  404 "User not found" eq_refl)).
Defined.


(** ** Files edited by hand *)

(** X8: when the value stored under "user" is not a dict, [get_user]
    returns it as it is, an [update_user] that carries a non-empty role
    or an about record raises [TypeError], [motivation] raises
    [AttributeError], and none of them changes the world. *)
Theorem user_not_a_dict (cfg : config) (e : env) (doc : gmap string json)
    (v : json) (w : world)
    (Hdoc : document w = JObj doc) (Hu : doc !! "user" = Some v)
    (Hv : is_dict v = false) :
  get_user w = (Return (JObj {["data" := v]}), w) ∧
  (∀ update : UpdateData,
     (∃ r, upd_role update = Some r ∧ r ≠ "") ∨ is_Some (upd_about update) →
     update_user update w = (Raise TypeError, w)) ∧
  motivation cfg e w = (Raise AttributeError, w).
Proof.
  destruct (document_cases _ _ Hdoc) as [Hf | [_ ->]]; [| by rewrite lookup_empty in Hu].
  destruct w as [f ev]. simpl in Hf. subst f.
  split; [| split].
  - unfold get_user, read_data, mbind, M_bind, lift, raise, mret, M_ret. simpl.
    by rewrite Hu.
  - intros [[r|] [a|]] Hsup;
      unfold update_user, read_data, mbind, M_bind, lift, raise, mret, M_ret,
        set_user_item; cbn [file upd_role upd_about Py.truthy].
    + simpl Py.contains. rewrite Hu. cbn [bool_decide decide_rel negb].
      destruct (negb (String.eqb r "")); simpl; rewrite Hu; by destruct v.
    + destruct Hsup as [(r' & [= <-] & Hr) | [? [=]]].
      apply String.eqb_neq in Hr. rewrite Hr. simpl. rewrite Hu. simpl.
      rewrite ?Hu. by destruct v.
    + simpl. rewrite Hu. simpl. rewrite ?Hu. by destruct v.
    + by destruct Hsup as [(r' & [=] & _) | [? [=]]].
  - unfold motivation, read_data, mbind, M_bind, lift, raise. simpl.
    rewrite Hu. simpl. by destruct v.
Qed.

Lemma user_not_a_dict_witness :
  get_user Sample.w_number = (Return (JObj {["data" := JInt 5]}), Sample.w_number) ∧
  update_user (mkUpdateData (Some "Dev") None) Sample.w_number
    = (Raise TypeError, Sample.w_number) ∧
  motivation Sample.cfg Sample.env_ok Sample.w_number
    = (Raise AttributeError, Sample.w_number).
Proof.
  destruct (user_not_a_dict Sample.cfg Sample.env_ok {["user" := JInt 5]}
              (JInt 5) Sample.w_number eq_refl eq_refl eq_refl) as (Hg & Hup & Hm).
  split; [exact Hg |]. split; [| exact Hm].
  apply Hup. left. by exists "Dev".
Defined.

(** X9: when the file holds a value that is not a dict, the three
    handlers that read it raise the same exception and leave the world
    as it is: the 404 when the membership test is false (a list
    without the element "user", a string without that substring), a
    [TypeError] otherwise (a list or a string with it, [None], a bool,
    a number). *)
Theorem document_not_a_dict (cfg : config) (e : env) (update : UpdateData)
    (d : json) (w : world)
    (Hfile : file w = Some d) (Hd : is_dict d = false) :
  let raised :=
    match Py.contains "user" d with
    | Return false => HTTPException 404 "User not found"
    | _ => TypeError
    end in
  get_user w = (Raise raised, w) ∧
  update_user update w = (Raise raised, w) ∧
  motivation cfg e w = (Raise raised, w).
Proof.
  destruct w as [f ev]. simpl in Hfile. subst f.
  assert (Hg : Py.getitem d "user" = Raise TypeError) by (by destruct d).
  assert (Hs : ∀ k x, set_user_item d k x = Raise TypeError).
  { intros k x. unfold set_user_item. by rewrite Hg. }
  unfold get_user, update_user, motivation, read_data, write_data,
    mbind, M_bind, lift, raise, mret, M_ret. cbn [file].
  destruct (Py.contains "user" d) as [[|] | x0] eqn:Hc; cbn [negb].
  - rewrite Hg. split; [done |]. split; [| done].
    destruct update as [[r|] [a|]]; cbn [upd_role upd_about];
      try destruct (Py.truthy (JStr r)); rewrite ?Hs, ?Hg; done.
  - done.
  - assert (x0 = TypeError) as -> by (destruct d; simpl in Hc; congruence).
    done.
Qed.

Lemma document_not_a_dict_witness :
  get_user Sample.w_list = (Raise TypeError, Sample.w_list) ∧
  update_user (mkUpdateData None None) Sample.w_list
    = (Raise TypeError, Sample.w_list) ∧
  motivation Sample.cfg Sample.env_ok Sample.w_list
    = (Raise TypeError, Sample.w_list).
Proof.
  exact (document_not_a_dict Sample.cfg Sample.env_ok (mkUpdateData None None)
           (JArr [JStr "user"]) Sample.w_list eq_refl eq_refl).
Defined.

(** ** The SMTP session *)

Lemma send_email_session (cfg : config) (e : env) (s b t : string) (w : world) :
  snd (send_email cfg e s b t w) = appended (session cfg e (mail cfg s b t)) w.
Proof.
  unfold send_email, session, with_exit, call, mbind, M_bind, appended, log.
  destruct (smtp_connect e), (smtp_starttls e), (smtp_login e),
    (smtp_send_message e), (smtp_quit e); simpl; by rewrite <- ?app_assoc.
Qed.

Lemma send_email_returns_iff (cfg : config) (e : env) (s b t : string) (w : world) :
  fst (send_email cfg e s b t w) = Return () ↔ smtp_succeeds e.
Proof.
  split.
  - unfold send_email, smtp_succeeds, with_exit, call, mbind, M_bind.
    destruct (smtp_connect e), (smtp_starttls e), (smtp_login e),
      (smtp_send_message e), (smtp_quit e); simpl; done.
  - intros Hok. by rewrite send_email_succeeds.
Qed.

(** X10: in every environment [send_email] opens one connection; it
    presents the credentials only after the TLS upgrade succeeded and
    hands over the message, which is the one it built, only after the
    login succeeded; it closes the session exactly when the connection
    was opened; and it returns exactly when all five steps succeed. *)
Theorem send_email_steps (cfg : config) (e : env)
    (subject body to_email : string) (w : world) :
  ∃ evs : list event,
    snd (send_email cfg e subject body to_email w) = appended evs w ∧
    connections evs = 1 ∧
    (∀ u pw, SmtpLogin u pw ∈ evs →
       smtp_connect e = None ∧ smtp_starttls e = None) ∧
    (∀ msg, SmtpSendMessage msg ∈ evs →
       msg = mail cfg subject body to_email ∧
       smtp_connect e = None ∧ smtp_starttls e = None ∧ smtp_login e = None) ∧
    (SmtpQuit ∈ evs ↔ smtp_connect e = None) ∧
    (fst (send_email cfg e subject body to_email w) = Return () ↔ smtp_succeeds e).
Proof.
  exists (session cfg e (mail cfg subject body to_email)).
  split; [apply send_email_session |].
  split; [| split; [| split; [| split; [| apply send_email_returns_iff]]]];
    unfold session;
    destruct (smtp_connect e) as [xc|], (smtp_starttls e) as [xt|],
      (smtp_login e) as [xl|]; try done.
  all: try (intros u pw Hin; not_in_list Hin).
  all: try (intros msg Hin;
            repeat (apply elem_of_cons in Hin as [Hin | Hin];
                    [try discriminate Hin |]);
            [by injection Hin as -> | by apply elem_of_nil in Hin]).
  all: try (intros msg Hin; not_in_list Hin).
  all: try (split; [done |]; intros _;
            repeat (first [apply list_elem_of_here | apply list_elem_of_further])).
  all: split; [intros Hin; not_in_list Hin | done].
Qed.

Lemma send_email_steps_witness :
  fst (send_email Sample.cfg Sample.env_ok "s" "b" "t" fresh) = Return () ∧
  smtp_login Sample.env_smtp_down ≠ None.
Proof.
  destruct (send_email_steps Sample.cfg Sample.env_ok "s" "b" "t" fresh)
    as (evs & _ & _ & _ & _ & _ & Hret).
  split; [| done].
  apply Hret. repeat split.
Defined.

(** ** The states the endpoints can reach *)

Lemma deliver_dict_result (cfg : config) (e : env) (about : gmap string json)
    (w : world) :
  (∃ msg, fst (deliver cfg e (JObj about) w) = Return (answer msg) ∧ smtp_succeeds e) ∨
  (∃ x, fst (deliver cfg e (JObj about) w) = Raise (LibraryError x) ∧
        ¬ smtp_succeeds e).
Proof.
  destruct (deliver_dict cfg e about w) as (msg & evs & _ & _ & _ & ->).
  unfold mbind, M_bind.
  pose proof (send_email_returns_iff cfg e "Your Daily Motivation"
                (PyStr.replace "**" "" msg) recipient
                (appended (GenerateContent (prompt_for e about) generation_config :: evs) w))
    as Hiff.
  destruct (send_email_outcome cfg e "Your Daily Motivation"
              (PyStr.replace "**" "" msg) recipient
              (appended (GenerateContent (prompt_for e about) generation_config :: evs) w))
    as (r & evs' & Hs & _ & Hr).
  rewrite Hs in *. simpl in *.
  destruct r as [[] | x].
  - left. exists (PyStr.replace "**" "" msg). split; [done |]. by apply Hiff.
  - right. destruct Hr as [x' ->]. exists x'. split; [done |].
    intros Hok. apply Hiff in Hok. done.
Qed.

(** X11: in a state reached through the endpoints, [get_user] and
    [update_user] answer 200 or 404 only, and [motivation] never
    answers 400: it answers 200 or 404, or 500 when a step of the SMTP
    session failed. *)
Theorem reachable_statuses (cfg : config) (e : env) (update : UpdateData)
    (w : world) (Hreach : reachable w) :
  (status_of (fst (get_user w)) = 200%Z ∨ status_of (fst (get_user w)) = 404%Z) ∧
  (status_of (fst (update_user update w)) = 200%Z ∨
   status_of (fst (update_user update w)) = 404%Z) ∧
  (status_of (fst (motivation cfg e w)) = 200%Z ∨
   status_of (fst (motivation cfg e w)) = 404%Z ∨
   (status_of (fst (motivation cfg e w)) = 500%Z ∧ ¬ smtp_succeeds e)).
Proof.
  destruct (reachable_inv w Hreach) as [Hd | [p Hd]].
  - (* the empty document *)
    assert (fst (get_user w) = Raise not_found ∧
            fst (motivation cfg e w) = Raise not_found) as [Hg Hm].
    { destruct w as [[d|] ev]; [| done].
      unfold document in Hd. simpl in Hd. by subst d. }
    destruct (update_user_outcome update w) as [(x & Hu & Hx) | (body & d & Hu)].
    + rewrite Hg, Hm, Hu. simpl.
      destruct Hx as [-> | ->]; [by auto |].
      exfalso.
      destruct w as [[d|] ev]; [| done].
      unfold document in Hd. simpl in Hd. subst d. done.
    + rewrite Hg, Hm, Hu. simpl. auto.
  - (* a stored profile *)
    assert (Hu : ({["user" := UserData_dict p]} : gmap string json) !! "user"
                 = Some (UserData_dict p)) by apply lookup_singleton_eq.
    rewrite (update_user_stored update p _ w Hd Hu).
    rewrite (motivation_delivers cfg e _ (UserData_dict p) (About_dict (about p))
               w Hd Hu);
      [| by destruct p | apply About_dict_truthy].
    split; [| split; [by left |]].
    + left.
      destruct (document_cases _ _ Hd) as [Hf | [_ He]];
        [| by apply (f_equal (λ m : gmap string json, m !! "user")) in He].
      destruct w as [f ev]. simpl in Hf. subst f. done.
    + destruct (deliver_dict_result cfg e (About_fields (about p)) w)
        as [(msg & Hr & _) | (x & Hr & Hno)];
        unfold About_dict; rewrite Hr; simpl; auto.
Qed.

Lemma reachable_statuses_witness :
  status_of (fst (motivation Sample.cfg Sample.env_smtp_down Sample.w1)) = 500%Z ∧
  status_of (fst (get_user Sample.w1)) = 200%Z.
Proof.
  assert (Hreach : reachable Sample.w1).
  { apply (reachable_step Sample.cfg Sample.env_ok (CreateUser Sample.user1)).
    apply reachable_fresh. }
  destruct (reachable_statuses Sample.cfg Sample.env_smtp_down
              (mkUpdateData None None) Sample.w1 Hreach) as (Hg & _ & Hm).
  split.
  - destruct Hm as [Hm | [Hm | [Hm _]]]; [| | exact Hm];
      vm_compute in Hm; discriminate Hm.
  - destruct Hg as [Hg | Hg]; [exact Hg |].
    vm_compute in Hg. discriminate Hg.
Defined.

(** ** The calls of the generator *)

Lemma ask_model_trace (e : env) (prompt : string) (w : world) :
  ∃ evs : list event,
    snd (ask_model e prompt w)
    = appended (GenerateContent prompt generation_config :: evs) w ∧
    ((evs = [] ∧
      ∀ x, generate_content e prompt generation_config ≠ ApiRaises x ∧
           generate_content e prompt generation_config
           ≠ ApiReturns (Some (Response (TextRaises x)))) ∨
     (∃ x, evs = [Print (error_line x)] ∧
           (generate_content e prompt generation_config = ApiRaises x ∨
            generate_content e prompt generation_config
            = ApiReturns (Some (Response (TextRaises x)))))).
Proof.
  unfold ask_model, appended, log, error_line. simpl.
  destruct (generate_content e prompt generation_config)
    as [x | [[[x | s]] |]] eqn:Hg; simpl.
  - eexists. rewrite <- app_assoc. split; [reflexivity |]. right. eauto.
  - eexists. rewrite <- app_assoc. split; [reflexivity |]. right. eauto.
  - exists []. split; [by destruct (String.eqb s "") |]. left. by split.
  - exists []. split; [done |]. left. by split.
Qed.

(** X12: [generate_motivation] asks the model once, with the sampling
    temperature 0.95 and at most 250 output tokens, and prints the line
    "Error from Gemini: ..." exactly when the call, or reading the text
    of the response, raised; it prints nothing when the response is
    missing or empty. *)
Theorem generate_motivation_calls (e : env) (about : gmap string json) (w : world) :
  ∃ (prompt : string) (evs : list event),
    snd (generate_motivation e (JObj about) w)
    = appended (GenerateContent prompt
                  {| temperature := QArith_base.Qmake 95 100;
                     max_output_tokens := 250 |} :: evs) w ∧
    generations evs = 0 ∧ connections evs = 0 ∧
    ∀ line, Print line ∈ evs ↔
      ∃ x, line = "Error from Gemini: " +:+ exn_str x ∧
           (generate_content e prompt generation_config = ApiRaises x ∨
            generate_content e prompt generation_config
            = ApiReturns (Some (Response (TextRaises x)))).
Proof.
  exists (prompt_for e about).
  rewrite generate_motivation_dict.
  destruct (ask_model_trace e (prompt_for e about) w) as (evs & Hs & Hcase).
  exists evs. destruct Hcase as [[-> Hno] | (x & -> & Hx)].
  - split; [exact Hs |]. repeat split; try done.
    + intros Hin. not_in_list Hin.
    + intros (x & _ & [Hx | Hx]); by destruct (Hno x).
  - split; [exact Hs |]. repeat split; try done.
    + intros Hin. apply elem_of_cons in Hin as [[= ->] | Hin];
        [by exists x | by apply elem_of_nil in Hin].
    + intros (y & -> & Hy). unfold error_line.
      assert (y = x) as ->; [| apply list_elem_of_here].
      destruct Hx as [Hx | Hx], Hy as [Hy | Hy]; congruence.
Qed.

Lemma generate_motivation_calls_witness :
  ∃ (prompt : string) (evs : list event),
    snd (generate_motivation Sample.env_api_down (About_dict Sample.about1) fresh)
    = appended (GenerateContent prompt generation_config :: evs) fresh ∧
    Print "Error from Gemini: timed out" ∈ evs.
Proof.
  destruct (generate_motivation_calls Sample.env_api_down
              (About_fields Sample.about1) fresh) as (prompt & evs & Hs & _ & _ & Hp).
  exists prompt, evs. split; [exact Hs |].
  apply Hp. exists Sample.timeout. split; [reflexivity | by left].
Defined.

(** X13: a text of the model that is not empty is never replaced by the
    fallback: the message is that text without its leading and
    trailing white space, and for a text of spaces only it is the empty
    string. *)
Theorem blank_text_gives_empty_message (e : env) (about : gmap string json)
    (w : world) (s : string)
    (Hapi : generate_content e (prompt_for e about) generation_config
            = ApiReturns (Some (Response (Text s))))
    (Hs : s ≠ "") :
  fst (generate_motivation e (JObj about) w) = Return (PyStr.strip s) ∧
  (∀ n, s = spaces n → fst (generate_motivation e (JObj about) w) = Return "").
Proof.
  assert (Hg : fst (generate_motivation e (JObj about) w) = Return (PyStr.strip s)).
  { rewrite generate_motivation_dict. unfold ask_model. rewrite Hapi. simpl.
    apply String.eqb_neq in Hs. by rewrite Hs. }
  split; [exact Hg |].
  intros n ->. rewrite Hg. f_equal.
  assert (Hl : ∀ k m, m ≤ k → PyStr.lstrip_fuel k (spaces m) = "").
  { induction k as [| k IH]; intros [| m] Hm; try done; [lia |].
    simpl. apply IH. lia. }
  assert (Hlen : ∀ m, String.length (spaces m) = m).
  { induction m as [| m IH]; [done |].
    change (S (String.length (spaces m)) = S m). by f_equal. }
  unfold PyStr.strip, PyStr.lstrip.
  rewrite (Hl (String.length (spaces n)) n); [done |].
  rewrite (Hlen n). lia.
Qed.

Lemma blank_text_gives_empty_message_witness :
  fst (generate_motivation Sample.env_blank (About_dict Sample.about1) fresh)
  = Return "".
Proof.
  destruct (blank_text_gives_empty_message Sample.env_blank
              (About_fields Sample.about1) fresh "   " eq_refl) as [_ H].
  { done. }
  exact (H 3 eq_refl).
Defined.

(** ** Replacing in strings *)

Lemma replace_absent (old new s : string) :
  old ≠ "" → PyStr.contains old s = false → PyStr.replace old new s = s.
Proof.
  intros Hold. destruct old as [| a o]; [done |].
  unfold PyStr.replace.
  induction s as [| c s IH]; [done |].
  cbn [PyStr.contains]. intros [Hp Hc]%orb_false_elim.
  cbn [PyStr.replace_from]. rewrite Hp. f_equal. by apply IH.
Qed.

(** X14: stripping the markers a second time changes nothing, and a
    message without "**" goes through [replace("**", "")] unchanged. *)
Theorem marker_stripping_stable (s : string) :
  PyStr.replace "**" "" (PyStr.replace "**" "" s) = PyStr.replace "**" "" s ∧
  (PyStr.contains "**" s = false → PyStr.replace "**" "" s = s).
Proof.
  split.
  - apply replace_absent; [done | apply replace_stars_clean].
  - by apply replace_absent.
Qed.

Lemma marker_stripping_stable_witness :
  PyStr.replace "**" "" "Keep *going*." = "Keep *going*.".
Proof.
  exact (proj2 (marker_stripping_stable "Keep *going*.") eq_refl).
Defined.





(** ** The calls of a motivation request *)







(** ** The storage accessor *)

(** X17: what [write_data] wrote is what [read_data] returns, without
    touching the file again; a second [read_data] returns the same
    document as the first and changes nothing; and after [read_data],
    as after any endpoint, the file exists. *)
Theorem storage_accessor (cfg : config) (e : env) (req : request)
    (d : json) (w : world) :
  read_data (snd (write_data d w)) = (Return d, snd (write_data d w)) ∧
  read_data (snd (read_data w)) = (fst (read_data w), snd (read_data w)) ∧
  file (snd (read_data w)) = Some (document w) ∧
  is_Some (file (snd (handle cfg e req w))).
Proof.
  split; [done |]. split; [by destruct w as [[d'|] ev] |].
  split; [by destruct w as [[d'|] ev] |].
  destruct req as [user | | update |]; simpl.
  - by eexists.
  - rewrite get_user_file. by eexists.
  - destruct (update_user_outcome update w) as [(x & -> & _) | (body & d' & ->)];
      by eexists.
  - rewrite motivation_file. by eexists.
Qed.
